(** * WordToPPT: a shallow embedding of the document-to-deck pipeline

    The development follows the layout of the Python package:
    - [Py]              the Python built-ins the package relies on
                        (str methods, [int], truthiness);
    - [Json]            the values [json.loads] hands to the package;
    - [Utils]           [wordtoppt/utils.py];
    - [DocxParser]      [wordtoppt/docx_parser.py];
    - [Pptx]            what the package uses of python-pptx, and files;
    - [TemplateManager] [wordtoppt/template_manager.py];
    - [PPTXCreator]     [wordtoppt/pptx_creator.py];
    - [WordToPPT]       [wordtoppt/wordtoppt.py];
    - [AIGenerator]     [wordtoppt/ai_generator.py].

    Exceptions are values of [result]; loops that may raise are [for_each];
    dicts with string keys are [gmap string _]; the files are a
    [gmap string File] threaded through the calls that copy and save.

    Python [str] values are modelled as [string]; a character is read as a
    code point below 256, which is closed under [str.lower], [str.strip] and
    [str.split]. *)

From Stdlib Require Import ZArith NArith Ascii String List Bool Lia.
From Stdlib Require Import DecimalString DecimalNat DecimalFacts.
From stdpp Require Import base option list gmap strings.

Local Open Scope string_scope.
Local Open Scope list_scope.

(** ** Exceptions and results *)

Inductive exn : Type :=
| ValueError
| TypeError
| AttributeError
| IndexError
| KeyError
| OSError
| RuntimeError (cause : exn).

Inductive result (A : Type) : Type :=
| Ok (a : A)
| Raise (e : exn).
Arguments Ok {A} a.
Arguments Raise {A} e.

Definition bind {A B} (r : result A) (k : A -> result B) : result B :=
  match r with
  | Ok a => k a
  | Raise e => Raise e
  end.

Notation "'let*' x ':=' r 'in' k" := (bind r (fun x => k))
  (at level 10, x pattern, r at level 100, k at level 200).

Definition is_ok {A} (r : result A) : bool :=
  match r with Ok _ => true | Raise _ => false end.

(** A [for] loop whose body may raise: the state is threaded through the
    items in order and the first exception ends the loop. *)
Fixpoint for_each {S A} (body : S -> A -> result S) (items : list A) (s : S)
  : result S :=
  match items with
  | [] => Ok s
  | x :: items' => let* s' := body s x in for_each body items' s'
  end.

(** ** Python built-ins *)

Module Py.

Definition code (c : ascii) : N := N_of_ascii c.

(** [str.isspace] on one character, for code points below 256. *)
Definition is_space (c : ascii) : bool :=
  let n := code c in
  ((9 <=? n) && (n <=? 13) || (28 <=? n) && (n <=? 32)
   || (n =? 133) || (n =? 160))%N.

Definition newline : ascii := "010"%char.

(** [c.lower()] for code points below 256: A-Z and the Latin-1 capitals
    (192..222 without the multiplication sign 215) move up by 32. *)
Definition lower_char (c : ascii) : ascii :=
  let n := code c in
  if ((65 <=? n) && (n <=? 90)
      || (192 <=? n) && (n <=? 222) && negb (n =? 215))%N
  then ascii_of_N (n + 32) else c.

Fixpoint lower (s : string) : string :=
  match s with
  | "" => ""
  | String c s' => String (lower_char c) (lower s')
  end.

(** [bool(s)] for a string. *)
Definition truthy (s : string) : bool :=
  match s with "" => false | _ => true end.

(** [s.startswith(p)] *)
Fixpoint startswith (s p : string) : bool :=
  match p with
  | "" => true
  | String c p' =>
      match s with
      | "" => false
      | String c' s' => Ascii.eqb c' c && startswith s' p'
      end
  end.

(** [needle in hay] *)
Fixpoint contains (needle hay : string) : bool :=
  startswith hay needle
  || match hay with
     | "" => false
     | String _ hay' => contains needle hay'
     end.

Fixpoint lstrip (s : string) : string :=
  match s with
  | "" => ""
  | String c s' => if is_space c then lstrip s' else s
  end.

Fixpoint rstrip (s : string) : string :=
  match s with
  | "" => ""
  | String c s' =>
      match rstrip s' with
      | "" => if is_space c then "" else String c ""
      | r => String c r
      end
  end.

(** [s.strip()] *)
Definition strip (s : string) : string := rstrip (lstrip s).

(** [s.split(sep)] for a one-character separator: never the empty list. *)
Fixpoint split (sep : ascii) (s : string) : list string :=
  match s with
  | "" => [""]
  | String c s' =>
      if Ascii.eqb c sep then "" :: split sep s'
      else match split sep s' with
           | h :: t => String c h :: t
           | [] => [String c ""]
           end
  end.

(** [s.split()]: the maximal runs of characters that are not white space. *)
Fixpoint words (s : string) : list string :=
  match s with
  | "" => []
  | String c s' =>
      if is_space c then words s'
      else match s' with
           | "" => [String c ""]
           | String c' _ =>
               if is_space c' then String c "" :: words s'
               else match words s' with
                    | h :: t => String c h :: t
                    | [] => [String c ""]
                    end
           end
  end.

(** [sep.join(l)] *)
Fixpoint join (sep : string) (l : list string) : string :=
  match l with
  | [] => ""
  | x :: l' =>
      match l' with
      | [] => x
      | _ :: _ => x +:+ sep +:+ join sep l'
      end
  end.

(** [enumerate(l, start)] and [enumerate(l)] *)
Fixpoint enumerate_from {A} (start : nat) (l : list A) : list (nat * A) :=
  match l with
  | [] => []
  | x :: l' => (start, x) :: enumerate_from (S start) l'
  end.

Definition enumerate {A} (l : list A) : list (nat * A) := enumerate_from 0 l.

(** [l[-1]] *)
Definition last_item {A} (l : list A) : result A :=
  match last l with
  | Some x => Ok x
  | None => Raise IndexError
  end.

Definition digit_value (c : ascii) : option Z :=
  let n := code c in
  if ((48 <=? n) && (n <=? 57))%N then Some (Z.of_N n - 48)%Z else None.

(** The digits of an integer literal; one underscore may sit between two
    digits. [after_digit] tells whether the previous character was a digit. *)
Fixpoint parse_digits (acc : Z) (after_digit : bool) (s : string) : option Z :=
  match s with
  | "" => if after_digit then Some acc else None
  | String c s' =>
      match digit_value c with
      | Some d => parse_digits (10 * acc + d)%Z true s'
      | None =>
          if Ascii.eqb c "_" && after_digit then parse_digits acc false s'
          else None
      end
  end.

(** [int(s)]: white space around the literal is ignored, one sign is
    allowed; anything else raises [ValueError]. *)
Definition int (s : string) : result Z :=
  let parsed :=
    match strip s with
    | String "+" d => parse_digits 0 false d
    | String "-" d => option_map Z.opp (parse_digits 0 false d)
    | d => parse_digits 0 false d
    end in
  match parsed with
  | Some z => Ok z
  | None => Raise ValueError
  end.

End Py.

(** ** Values decoded by [json.loads] *)

Module Json.

(** A dict keeps its items in insertion order; a lookup takes the first
    item with the key. *)
#[warnings="-register-all"] Inductive value : Type :=
| JNull
| JBool (b : bool)
| JNum (n : Z)
| JStr (s : string)
| JList (items : list value)
| JDict (items : list (string * value)).

(** [bool(v)] *)
Definition truthy (v : value) : bool :=
  match v with
  | JNull => false
  | JBool b => b
  | JNum n => negb (n =? 0)%Z
  | JStr s => Py.truthy s
  | JList items => match items with [] => false | _ => true end
  | JDict items => match items with [] => false | _ => true end
  end.

(** [d[key]] as an option, for a dict given by its items. *)
Fixpoint lookup (key : string) (items : list (string * value)) : option value :=
  match items with
  | [] => None
  | (k, v) :: items' => if String.eqb k key then Some v else lookup key items'
  end.

(** [v.get(key, default)]: only a dict has [get]. *)
Definition get (v : value) (key : string) (default : value) : result value :=
  match v with
  | JDict items =>
      match lookup key items with
      | Some x => Ok x
      | None => Ok default
      end
  | _ => Raise AttributeError
  end.

(** [v == s] for a string literal [s]. *)
Definition eq_str (v : value) (s : string) : bool :=
  match v with
  | JStr s' => String.eqb s' s
  | _ => false
  end.

Fixpoint chars (s : string) : list value :=
  match s with
  | "" => []
  | String c s' => JStr (String c "") :: chars s'
  end.

Fixpoint keys (seen : list string) (items : list (string * value)) : list value :=
  match items with
  | [] => []
  | (k, _) :: items' =>
      if existsb (String.eqb k) seen then keys seen items'
      else JStr k :: keys (k :: seen) items'
  end.

(** [iter(v)]: the items a [for] loop over [v] visits. *)
Definition iter (v : value) : result (list value) :=
  match v with
  | JList items => Ok items
  | JStr s => Ok (chars s)
  | JDict items => Ok (keys [] items)
  | _ => Raise TypeError
  end.

End Json.

(** ** utils.py *)

Module Utils.

Definition format_slide_notes (notes : string) : string :=
  if negb (Py.truthy notes) then ""
  else
    let lines := map Py.strip (Py.split Py.newline notes) in
    Py.join (String Py.newline "") (List.filter Py.truthy lines).

End Utils.

(** ** docx_parser.py *)

Module DocxParser.

(** What python-docx exposes of a paragraph: [paragraph.style.name] and
    [paragraph.text]. *)
Record Paragraph : Type := { style_name : string; text : string }.

Definition Document : Type := list Paragraph.

Record Heading : Type := { level : Z; heading_text : string }.

Record DocSection : Type := { heading : Heading; content : list string }.

Record Content : Type := {
  title : string;
  headings : list Heading;
  paragraphs : list string;
  sections : list DocSection
}.

Definition is_heading (p : Paragraph) : bool :=
  Py.startswith (style_name p) "Heading".

(** [int(paragraph.style.name.split()[-1])] *)
Definition heading_level (p : Paragraph) : result Z :=
  let* token := Py.last_item (Py.words (style_name p)) in
  Py.int token.

Definition _extract_title (document : option Document) : string :=
  match document with
  | None | Some [] => ""
  | Some doc =>
      match find (fun p => Py.startswith (style_name p) "Heading 1"
                           || String.eqb (style_name p) "Title")
                 (firstn 3 doc) with
      | Some p => Py.strip (text p)
      | None =>
          match find (fun p => Py.truthy (Py.strip (text p))) (firstn 5 doc) with
          | Some p => Py.strip (text p)
          | None => ""
          end
      end
  end.

Definition _extract_headings (document : option Document)
  : result (list Heading) :=
  match document with
  | None => Ok []
  | Some doc =>
      for_each
        (fun headings p =>
           if is_heading p then
             let* lvl := heading_level p in
             Ok (headings ++ [{| level := lvl; heading_text := Py.strip (text p) |}])
           else Ok headings)
        doc []
  end.

Definition _extract_paragraphs (document : option Document) : list string :=
  match document with
  | None => []
  | Some doc =>
      fold_left
        (fun paragraphs p =>
           if negb (is_heading p) && Py.truthy (Py.strip (text p))
           then paragraphs ++ [Py.strip (text p)]
           else paragraphs)
        doc []
  end.

(** The loop state of [_extract_sections]:
    [sections], [current_section], [current_content]. *)
Definition SectionsState : Type :=
  (list DocSection * option Heading * list string)%type.

Definition flush (sections : list DocSection) (current_section : option Heading)
    (current_content : list string) : list DocSection :=
  match current_section with
  | Some h => sections ++ [{| heading := h; content := current_content |}]
  | None => sections
  end.

Definition sections_step (st : SectionsState) (p : Paragraph)
  : result SectionsState :=
  let '(sections, current_section, current_content) := st in
  if is_heading p then
    let sections := flush sections current_section current_content in
    let* lvl := heading_level p in
    Ok (sections,
        Some {| level := lvl; heading_text := Py.strip (text p) |},
        [])
  else if Py.truthy (Py.strip (text p)) && bool_decide (is_Some current_section)
  then Ok (sections, current_section, current_content ++ [Py.strip (text p)])
  else Ok st.

Definition _extract_sections (document : option Document)
  : result (list DocSection) :=
  match document with
  | None => Ok []
  | Some doc =>
      let* st := for_each sections_step doc ([], None, []) in
      let '(sections, current_section, current_content) := st in
      Ok (flush sections current_section current_content)
  end.

(** [extract_content] once [docx.Document(file_path)] has been tried:
    [opened] is its outcome. *)
Definition extract_content (opened : result Document) : result Content :=
  match opened with
  | Raise e => Raise (RuntimeError e)
  | Ok doc =>
      let document := Some doc in
      let title := _extract_title document in
      let* headings := _extract_headings document in
      let paragraphs := _extract_paragraphs document in
      let* sections := _extract_sections document in
      Ok {| title := title; headings := headings;
            paragraphs := paragraphs; sections := sections |}
  end.

End DocxParser.

(** ** The external deck library (python-pptx) and the file system

    Only what the package touches: layouts with their placeholders, slides
    with their shapes and notes, [add_slide], and files at paths. *)

Module Pptx.

Record Placeholder : Type := {
  ph_idx : Z;       (* placeholder_format.idx *)
  ph_type : Z;      (* placeholder_format.type *)
  ph_name : string
}.

Record Layout : Type := {
  layout_name : string;
  layout_placeholders : list Placeholder
}.

Record TextParagraph : Type := { p_text : string; p_level : Z }.

Record Shape : Type := {
  is_placeholder : bool;
  placeholder_type : Z;
  text_frame : list TextParagraph
}.

Record Slide : Type := {
  slide_layout : nat;            (* index of the layout the slide was made on *)
  shapes : list Shape;
  notes_text : option string     (* text of the notes frame; None: no notes slide *)
}.

Record Presentation : Type := {
  slide_layouts : list Layout;
  slides : list Slide
}.

(** [slide_layouts[i]] *)
Definition layout_at (prs : Presentation) (i : nat) : result Layout :=
  match slide_layouts prs !! i with
  | Some l => Ok l
  | None => Raise IndexError
  end.

(** [shape.text = s]: one paragraph per line. *)
Definition text_paragraphs (s : string) : list TextParagraph :=
  map (fun line => {| p_text := line; p_level := 0 |}) (Py.split Py.newline s).

(** [add_slide] gives the new slide a copy of each placeholder of the
    layout, except date (16), footer (15) and slide-number (13) ones. *)
Definition cloneable (ph : Placeholder) : bool :=
  negb ((ph_type ph =? 16) || (ph_type ph =? 15) || (ph_type ph =? 13))%Z.

Definition new_slide (i : nat) (layout : Layout) : Slide :=
  {| slide_layout := i;
     shapes := map (fun ph => {| is_placeholder := true;
                                 placeholder_type := ph_type ph;
                                 text_frame := [{| p_text := ""; p_level := 0 |}] |})
                   (List.filter cloneable (layout_placeholders layout));
     notes_text := None |}.

(** [prs.slides.add_slide(prs.slide_layouts[i])]: the new slide is last. *)
Definition add_slide (prs : Presentation) (sl : Slide) : Presentation :=
  {| slide_layouts := slide_layouts prs; slides := slides prs ++ [sl] |}.

Inductive File : Type :=
| PptxFile (prs : Presentation)
| OtherFile (bytes : string).

(** [pptx.Presentation(path)] *)
Definition open_presentation (fs : gmap string File) (path : string)
  : result Presentation :=
  match fs !! path with
  | Some (PptxFile prs) => Ok prs
  | _ => Raise OSError
  end.

(** [shutil.copy2(src, dst)] *)
Definition copy2 (fs : gmap string File) (src dst : string)
  : result (gmap string File) :=
  match fs !! src with
  | Some f => if String.eqb src dst then Raise OSError else Ok (<[dst := f]> fs)
  | None => Raise OSError
  end.

(** [prs.save(path)] *)
Definition save (fs : gmap string File) (path : string) (prs : Presentation)
  : gmap string File :=
  <[path := PptxFile prs]> fs.

End Pptx.

(** ** template_manager.py *)

Module TemplateManager.
Import Pptx.

Definition SLIDE_LAYOUT_TYPES : list (string * list string) :=
  [ ("title", ["Title Slide"; "Title"]);
    ("section", ["Section Header"; "Section"]);
    ("content", ["Title and Content"; "Content"; "Two Content"; "Comparison"]);
    ("picture", ["Picture with Caption"; "Title and Picture"]);
    ("blank", ["Blank"]) ].

Record PlaceholderInfo : Type := {
  info_index : Z;
  info_type : Z;
  info_name : string
}.

Record LayoutBinding : Type := {
  index : nat;
  name : string;
  placeholders : list PlaceholderInfo
}.

Definition _analyze_placeholders (layout : Layout) : list PlaceholderInfo :=
  map (fun ph => {| info_index := ph_idx ph;
                    info_type := ph_type ph;
                    info_name := ph_name ph |})
      (layout_placeholders layout).

Definition bind_layout (layout_idx : nat) (layout : Layout) : LayoutBinding :=
  {| index := layout_idx;
     name := layout_name layout;
     placeholders := _analyze_placeholders layout |}.

(** [any(name.lower() in layout_name.lower() for name in possible_names)] *)
Definition name_matches (possible_names : list string) (layout_name : string)
  : bool :=
  existsb (fun name => Py.contains (Py.lower name) (Py.lower layout_name))
          possible_names.

(** [slide_layouts[key]] on the dict of bindings. *)
Definition getitem (slide_layouts : gmap string (option LayoutBinding))
    (key : string) : result (option LayoutBinding) :=
  match slide_layouts !! key with
  | Some v => Ok v
  | None => Raise KeyError
  end.

(** Body of the inner loop over [SLIDE_LAYOUT_TYPES.items()]. *)
Definition match_type (layout_idx : nat) (layout : Layout)
    (slide_layouts : gmap string (option LayoutBinding))
    (item : string * list string)
  : result (gmap string (option LayoutBinding)) :=
  let '(layout_type, possible_names) := item in
  if name_matches possible_names (layout_name layout) then
    let* current := getitem slide_layouts layout_type in
    match current with
    | None => Ok (<[layout_type := Some (bind_layout layout_idx layout)]> slide_layouts)
    | Some _ => Ok slide_layouts
    end
  else Ok slide_layouts.

(** Body of the outer loop over [enumerate(slide_layouts)]. *)
Definition match_layout (slide_layouts : gmap string (option LayoutBinding))
    (item : nat * Layout) : result (gmap string (option LayoutBinding)) :=
  for_each (match_type (fst item) (snd item)) SLIDE_LAYOUT_TYPES slide_layouts.

Definition initial_layouts : gmap string (option LayoutBinding) :=
  <["title" := None]> (<["section" := None]> (<["content" := None]>
    (<["picture" := None]> (<["blank" := None]> ∅)))).

(** [analyze_template] on the opened presentation. *)
Definition analyze_layouts (prs : Presentation)
  : result (gmap string (option LayoutBinding)) :=
  let layouts := Pptx.slide_layouts prs in
  let* slide_layouts := for_each match_layout (Py.enumerate layouts) initial_layouts in
  (* Title layout is essential - if not found, use first layout *)
  let* title := getitem slide_layouts "title" in
  let* slide_layouts :=
    if bool_decide (title = None) && (0 <? length layouts)%nat then
      let* layout := layout_at prs 0 in
      Ok (<["title" := Some (bind_layout 0 layout)]> slide_layouts)
    else Ok slide_layouts in
  (* Content layout is essential - if not found, use second layout *)
  let* content := getitem slide_layouts "content" in
  let* slide_layouts :=
    if bool_decide (content = None) && (1 <? length layouts)%nat then
      let layout_idx := if (1 <? length layouts)%nat then 1 else 0 in
      let* layout := layout_at prs layout_idx in
      Ok (<["content" := Some (bind_layout layout_idx layout)]> slide_layouts)
    else Ok slide_layouts in
  (* Section layout - if not found, use title layout *)
  let* section := getitem slide_layouts "section" in
  if bool_decide (section = None) then
    let* title := getitem slide_layouts "title" in
    if negb (bool_decide (title = None)) then
      let* title := getitem slide_layouts "title" in
      Ok (<["section" := title]> slide_layouts)
    else Ok slide_layouts
  else Ok slide_layouts.

Definition analyze_template (fs : gmap string File) (template_path : string)
  : result (gmap string (option LayoutBinding)) :=
  match open_presentation fs template_path with
  | Raise e => Raise (RuntimeError e)
  | Ok prs => analyze_layouts prs
  end.

End TemplateManager.

(** ** pptx_creator.py *)

Module PPTXCreator.
Import Pptx Json TemplateManager.

(** [shape.text = v] on the shape at position [i]; the text must be a
    string. *)
Definition set_text (shapes : list Shape) (i : nat) (v : value)
  : result (list Shape) :=
  match v with
  | JStr s =>
      Ok (alter (fun sh => {| is_placeholder := is_placeholder sh;
                              placeholder_type := placeholder_type sh;
                              text_frame := text_paragraphs s |}) i shapes)
  | _ => Raise TypeError
  end.

(** The loop over [slide.shapes] of [_create_title_slide]: positions of
    [title_placeholder] and [subtitle_placeholder]. *)
Definition scan_title_slide (shapes : list Shape) : option nat * option nat :=
  fold_left
    (fun found item =>
       let sh : Shape := snd item in
       if negb (is_placeholder sh) then found
       else if (placeholder_type sh =? 1)%Z then (Some (fst item), snd found)
       else if (placeholder_type sh =? 2)%Z then (fst found, Some (fst item))
       else found)
    (Py.enumerate shapes) (None, None).

(** The loop of [_create_section_slide]: position of [title_placeholder]. *)
Definition scan_section_slide (shapes : list Shape) : option nat :=
  fold_left
    (fun found item =>
       let sh : Shape := snd item in
       if negb (is_placeholder sh) then found
       else if (placeholder_type sh =? 1)%Z then Some (fst item)
       else found)
    (Py.enumerate shapes) None.

Definition is_content_type (t : Z) : bool :=
  ((t =? 2) || (t =? 3) || (t =? 7) || (t =? 8) || (t =? 18))%Z.

(** The loop of [_create_content_slide]: positions of [title_placeholder]
    and [content_placeholder]. *)
Definition scan_content_slide (shapes : list Shape) : option nat * option nat :=
  fold_left
    (fun found item =>
       let sh : Shape := snd item in
       if negb (is_placeholder sh) then found
       else if (placeholder_type sh =? 1)%Z then (Some (fst item), snd found)
       else if is_content_type (placeholder_type sh) then (fst found, Some (fst item))
       else found)
    (Py.enumerate shapes) (None, None).

(** [if title_placeholder and "title" in slide_data: ...text = slide_data["title"]] *)
Definition set_title (title_placeholder : option nat)
    (slide_data : list (string * value)) (sl : Slide) : result Slide :=
  match title_placeholder, lookup "title" slide_data with
  | Some i, Some v =>
      let* shapes' := set_text (shapes sl) i v in
      Ok {| slide_layout := slide_layout sl; shapes := shapes';
            notes_text := notes_text sl |}
  | _, _ => Ok sl
  end.

Definition set_subtitle (subtitle_placeholder : option nat)
    (slide_data : list (string * value)) (sl : Slide) : result Slide :=
  match subtitle_placeholder, lookup "subtitle" slide_data with
  | Some i, Some v =>
      if truthy v then
        let* shapes' := set_text (shapes sl) i v in
        Ok {| slide_layout := slide_layout sl; shapes := shapes';
              notes_text := notes_text sl |}
      else Ok sl
  | _, _ => Ok sl
  end.

(** The bullet loop on a cleared text frame. *)
Definition write_bullet (frame : list TextParagraph) (item : nat * value)
  : result (list TextParagraph) :=
  match snd item with
  | JStr bullet =>
      let p := {| p_text := bullet; p_level := 0 |} in
      if (fst item =? 0)%nat then Ok (<[0%nat := p]> frame) else Ok (frame ++ [p])
  | _ => Raise TypeError
  end.

Definition set_bullets (content_placeholder : option nat)
    (slide_data : list (string * value)) (sl : Slide) : result Slide :=
  match content_placeholder, lookup "bullets" slide_data with
  | Some i, Some v =>
      if truthy v then
        let cleared := [{| p_text := ""; p_level := 0 |}] in
        let* bullets := iter v in
        let* frame := for_each write_bullet (Py.enumerate bullets) cleared in
        Ok {| slide_layout := slide_layout sl;
              shapes := alter (fun sh => {| is_placeholder := is_placeholder sh;
                                            placeholder_type := placeholder_type sh;
                                            text_frame := frame |}) i (shapes sl);
              notes_text := notes_text sl |}
      else Ok sl
  | _, _ => Ok sl
  end.

(** [format_slide_notes(v)] for a truthy value: only a string has [split]. *)
Definition format_notes_value (v : value) : result string :=
  match v with
  | JStr s => Ok (Utils.format_slide_notes s)
  | _ => if truthy v then Raise AttributeError else Ok ""
  end.

(** [if "notes" in slide_data and slide_data["notes"]:
       slide.notes_slide.notes_text_frame.text = format_slide_notes(...)] *)
Definition add_notes (slide_data : list (string * value)) (sl : Slide)
  : result Slide :=
  match lookup "notes" slide_data with
  | Some v =>
      if truthy v then
        let* formatted := format_notes_value v in
        Ok {| slide_layout := slide_layout sl; shapes := shapes sl;
              notes_text := Some formatted |}
      else Ok sl
  | None => Ok sl
  end.

Definition _create_title_slide (sl : Slide) (slide_data : list (string * value))
  : result Slide :=
  let found := scan_title_slide (shapes sl) in
  let* sl := set_title (fst found) slide_data sl in
  let* sl := set_subtitle (snd found) slide_data sl in
  add_notes slide_data sl.

Definition _create_section_slide (sl : Slide) (slide_data : list (string * value))
  : result Slide :=
  let found := scan_section_slide (shapes sl) in
  let* sl := set_title found slide_data sl in
  add_notes slide_data sl.

Definition _create_content_slide (sl : Slide) (slide_data : list (string * value))
  : result Slide :=
  let found := scan_content_slide (shapes sl) in
  let* sl := set_title (fst found) slide_data sl in
  let* sl := set_bullets (snd found) slide_data sl in
  add_notes slide_data sl.

(** [key in slide_layouts and slide_layouts[key]]: the binding when the
    test holds; [None] as [slide_layouts] is not a container. *)
Definition bound_layout (slide_layouts : option (gmap string (option LayoutBinding)))
    (key : string) : result (option LayoutBinding) :=
  match slide_layouts with
  | None => Raise TypeError
  | Some m =>
      match m !! key with
      | Some (Some b) => Ok (Some b)
      | _ => Ok None
      end
  end.

(** The index of the layout chosen for a slide of type [slide_type]. *)
Definition select_layout (prs : Presentation)
    (slide_layouts : option (gmap string (option LayoutBinding)))
    (slide_type : value) : result nat :=
  if eq_str slide_type "title" then Ok 0
  else if eq_str slide_type "section" then
    let* b := bound_layout slide_layouts "section" in
    match b with
    | Some binding => Ok (index binding)
    | None => Ok 0
    end
  else
    let* b := bound_layout slide_layouts "content" in
    match b with
    | Some binding => Ok (index binding)
    | None => Ok (if (1 <? length (Pptx.slide_layouts prs))%nat then 1 else 0)
    end.

Definition items_of (slide_data : value) : list (string * value) :=
  match slide_data with
  | JDict items => items
  | _ => []
  end.

(** Body of the loop over [slides_data]. The slide is filled and then
    appended; the source appends it first and fills it in place, which gives
    the same presentation, and an exception discards the presentation. *)
Definition create_slide
    (slide_layouts : option (gmap string (option LayoutBinding)))
    (prs : Presentation) (slide_data : value) : result Presentation :=
  let* slide_type := get slide_data "slide_type" (JStr "content") in
  let* layout_idx := select_layout prs slide_layouts slide_type in
  let* layout := layout_at prs layout_idx in
  let sl := new_slide layout_idx layout in
  let* sl :=
    if eq_str slide_type "title" then _create_title_slide sl (items_of slide_data)
    else if eq_str slide_type "section" then _create_section_slide sl (items_of slide_data)
    else _create_content_slide sl (items_of slide_data) in
  Ok (add_slide prs sl).

(** Everything between opening the presentation and saving it. *)
Definition populate (presentation_structure : value)
    (slide_layouts : option (gmap string (option LayoutBinding)))
    (prs : Presentation) : result Presentation :=
  let* slides_data := get presentation_structure "slides" (JList []) in
  let* slides_data := iter slides_data in
  for_each (create_slide slide_layouts) slides_data prs.

(** The entries the loop of [populate] visits. *)
Definition outline_slides (presentation_structure : value) : result (list value) :=
  let* slides_data := get presentation_structure "slides" (JList []) in
  iter slides_data.

Section WithDefaultTemplate.

(** What [pptx.Presentation()] returns: the library's built-in template. *)
Variable default_presentation : Presentation.

Definition path_given (template_path : option string) : option string :=
  match template_path with
  | Some p => if Py.truthy p then Some p else None
  | None => None
  end.

(** [create_presentation]: the file system after the call, and the
    outcome. *)
Definition create_presentation (template_path : option string)
    (output_path : string) (presentation_structure : value)
    (slide_layouts : option (gmap string (option LayoutBinding)))
    (fs : gmap string File) : gmap string File * result unit :=
  let '(fs1, opened) :=
    match path_given template_path with
    | Some t =>
        match copy2 fs t output_path with
        | Ok fs1 => (fs1, open_presentation fs1 output_path)
        | Raise e => (fs, Raise e)
        end
    | None => (fs, Ok default_presentation)
    end in
  match (let* prs := opened in populate presentation_structure slide_layouts prs) with
  | Ok prs => (save fs1 output_path prs, Ok tt)
  | Raise e => (fs1, Raise (RuntimeError e))
  end.

End WithDefaultTemplate.

End PPTXCreator.

(** ** wordtoppt.py *)

Module WordToPPT.
Import Pptx Json TemplateManager.

Definition create_presentation (default_presentation : Presentation)
    (content : value) (output_file : string) (template_file : option string)
    (fs : gmap string File) : gmap string File * result unit :=
  let layouts :=
    match PPTXCreator.path_given template_file with
    | Some t => let* m := analyze_template fs t in Ok (Some m)
    | None => Ok None
    end in
  match layouts with
  | Ok layouts =>
      PPTXCreator.create_presentation default_presentation template_file
        output_file content layouts fs
  | Raise e => (fs, Raise e)
  end.

End WordToPPT.

(** ** ai_generator.py

    The chat service and [json.loads] are outside the package: the
    generator is modelled over both. [chat_completion] stands for the request
    and the reading of [response.choices[0].message.content]; whatever it
    raises is not caught. [json_loads] returns [None] where [json.loads]
    raises [JSONDecodeError]. *)

Module AIGenerator.
Import Json DocxParser.

(** [s[n:]] *)
Fixpoint slice_from (n : nat) (s : string) : string :=
  match n, s with
  | O, _ => s
  | S _, "" => ""
  | S n', String _ s' => slice_from n' s'
  end.

(** [s[:n]] *)
Fixpoint slice_to (n : nat) (s : string) : string :=
  match n, s with
  | O, _ => ""
  | S _, "" => ""
  | S n', String c s' => String c (slice_to n' s')
  end.

(** [s[:-n]] for [n > 0] *)
Definition slice_to_last (n : nat) (s : string) : string :=
  slice_to (String.length s - n) s.

(** [s.endswith(p)] *)
Definition endswith (s p : string) : bool :=
  (String.length p <=? String.length s)%nat
  && String.eqb (slice_from (String.length s - String.length p) s) p.

Definition nl : string := String Py.newline "".

(** The text of one section in the prompt. *)
Definition section_prompt (section : DocSection) : string :=
  nl +:+ "Section: " +:+ heading_text (heading section) +:+ nl
  +:+ "Content:" +:+ nl +:+ Py.join nl (content section) +:+ nl.

Definition instructions : string :=
  "Create a complete presentation outline from the following document content. "
  +:+ "For each section, create a section slide followed by content slides summarizing the section's content as bullet points. "
  +:+ "Do not limit the number of slides; generate as many slides as necessary based on the document content. "
  +:+ "Format the response as a JSON object with these keys:" +:+ nl
  +:+ "- presentation_title: The document title" +:+ nl
  +:+ "- presentation_subtitle: Optional subtitle" +:+ nl
  +:+ "- slides: Array of slide objects containing:" +:+ nl
  +:+ "  - slide_type: One of 'title', 'section', or 'content'" +:+ nl
  +:+ "  - title: Slide title" +:+ nl
  +:+ "  - subtitle: Optional subtitle (for title slides)" +:+ nl
  +:+ "  - bullets: Array of bullet points summarizing the section content (for content slides)" +:+ nl
  +:+ "  - notes: Optional speaker notes" +:+ nl +:+ nl.

Definition _create_prompt (content : Content) : string :=
  let sections_text :=
    fold_left (fun text section => text +:+ section_prompt section)
      (sections content) "" in
  instructions
  +:+ "Document Title: " +:+ title content +:+ nl
  +:+ "Document Content:"
  +:+ sections_text.

(** The text handed to [json.loads]: the response trimmed, and freed from a
    Markdown code fence when it starts with one. *)
Definition response_text (raw : string) : string :=
  let content := Py.strip raw in
  if Py.startswith content "```json" then
    let content := Py.strip (slice_from 7 content) in
    if endswith content "```" then Py.strip (slice_to_last 3 content) else content
  else if Py.startswith content "```" then
    let content := Py.strip (slice_from 3 content) in
    if endswith content "```" then Py.strip (slice_to_last 3 content) else content
  else content.

Section WithServices.

Variable chat_completion : string -> result string.
Variable json_loads : string -> option value.

Definition _generate_with_openai (prompt : string) : result value :=
  let* raw := chat_completion prompt in
  let content := response_text raw in
  if negb (Py.truthy content) then Raise ValueError
  else
    match json_loads content with
    | Some v => Ok v
    | None => Raise ValueError
    end.

Definition generate_presentation (content : Content) : result value :=
  _generate_with_openai (_create_prompt content).

End WithServices.

End AIGenerator.

(** * Vocabulary of the statements *)

(** ** Strings *)

Fixpoint has_char (c : ascii) (s : string) : bool :=
  match s with
  | "" => false
  | String c' s' => Ascii.eqb c' c || has_char c s'
  end.

Definition starts_clean (s : string) : Prop :=
  match s with
  | "" => True
  | String c _ => Py.is_space c = false
  end.

(** ** Notes *)

(** The notes as the specification words them: each line trimmed, blank
    lines removed, joined with line breaks. *)
Definition trim_lines (notes : string) : string :=
  Py.join (String Py.newline "")
    (List.filter (fun line => negb (String.eqb line ""))
       (map Py.strip (Py.split Py.newline notes))).

(** The lines kept by [format_slide_notes]. *)
Definition kept_lines (notes : string) : list string :=
  List.filter Py.truthy (map Py.strip (Py.split Py.newline notes)).

(** ** Documents *)

Module DocSpec.
Import DocxParser.

(** A heading paragraph whose style name does not end in an integer. *)
Definition malformed_heading (p : Paragraph) : bool :=
  is_heading p && negb (is_ok (heading_level p)).

(** Every heading paragraph of the document has a level that parses. *)
Definition levels_parse (doc : Document) : bool :=
  forallb (fun p => negb (malformed_heading p)) doc.

(** A heading paragraph with the paragraphs up to the next heading. *)
Definition Block : Type := (Paragraph * list Paragraph)%type.

Definition block_paragraphs (b : Block) : list Paragraph := fst b :: snd b.

Definition flatten (blocks : list Block) : Document :=
  concat (map block_paragraphs blocks).

Definition no_heading (ps : list Paragraph) : bool :=
  forallb (fun p => negb (is_heading p)) ps.

Definition block_ok (b : Block) : bool :=
  is_heading (fst b) && is_ok (heading_level (fst b)) && no_heading (snd b).

(** The trimmed, non-empty texts of the paragraphs of a block body. *)
Definition body_content (body : list Paragraph) : list string :=
  List.filter Py.truthy (map (fun p => Py.strip (text p)) body).

(** The level of a heading paragraph whose level parses. *)
Definition parsed_level (p : Paragraph) : Z :=
  match heading_level p with
  | Ok lvl => lvl
  | Raise _ => 1
  end.

Definition section_of_block (b : Block) : DocSection :=
  {| heading := {| level := parsed_level (fst b);
                   heading_text := Py.strip (text (fst b)) |};
     content := body_content (snd b) |}.

(** The decomposition of a document into the paragraphs before the first
    heading and the blocks that follow. *)
Fixpoint split_blocks (doc : Document) : list Paragraph * list Block :=
  match doc with
  | [] => ([], [])
  | p :: doc' =>
      let r := split_blocks doc' in
      if is_heading p then ([], (p, fst r) :: snd r) else (p :: fst r, snd r)
  end.

Definition doc_heading_two : Document :=
  [ {| style_name := "Heading Two"; text := "Intro" |} ].

Definition doc_mixed : Document :=
  [ {| style_name := "Heading 1"; text := "Intro" |};
    {| style_name := "Normal"; text := "body" |};
    {| style_name := "Heading Two"; text := "Background" |} ].

Definition doc_two_sections : Document :=
  [ {| style_name := "Normal"; text := "preamble" |};
    {| style_name := "Heading 1"; text := " Intro " |};
    {| style_name := "Normal"; text := " a " |};
    {| style_name := "Normal"; text := "  " |};
    {| style_name := "Heading 2"; text := "Background" |};
    {| style_name := "Normal"; text := "b" |} ].

End DocSpec.

(** ** Layouts *)

Module LayoutSpec.
Import Pptx TemplateManager.

(** What one layout does to the binding of a role with the accepted
    [names]: a bound role stays, an unbound one takes a matching layout. *)
Definition step_binding (names : list string) (old : option LayoutBinding)
    (item : nat * Layout) : option LayoutBinding :=
  match old with
  | Some b => Some b
  | None =>
      if name_matches names (layout_name (snd item))
      then Some (bind_layout (fst item) (snd item))
      else None
  end.

(** The names a role accepts. *)
Definition accepted (key : string) : list string :=
  match find (fun item => String.eqb (fst item) key) SLIDE_LAYOUT_TYPES with
  | Some item => snd item
  | None => []
  end.

(** The first layout, by index, whose name matches one of [names]. *)
Definition first_match (names : list string) (items : list (nat * Layout))
  : option (nat * Layout) :=
  find (fun item => name_matches names (layout_name (snd item))) items.

Definition first_matching (key : string) (layouts : list Layout)
  : option LayoutBinding :=
  (fun item => bind_layout (fst item) (snd item))
    <$> first_match (accepted key) (Py.enumerate layouts).

Definition resolved_title (layouts : list Layout) : option LayoutBinding :=
  match first_matching "title" layouts with
  | Some b => Some b
  | None =>
      match layouts with
      | l0 :: _ => Some (bind_layout 0 l0)
      | [] => None
      end
  end.

Definition resolved_content (layouts : list Layout) : option LayoutBinding :=
  match first_matching "content" layouts with
  | Some b => Some b
  | None =>
      match layouts with
      | _ :: l1 :: _ => Some (bind_layout 1 l1)
      | _ => None
      end
  end.

Definition resolved_section (layouts : list Layout) : option LayoutBinding :=
  match first_matching "section" layouts with
  | Some b => Some b
  | None => resolved_title layouts
  end.

Definition named (n : string) : Layout :=
  {| layout_name := n; layout_placeholders := [] |}.

Definition template (names : list string) : Presentation :=
  {| slide_layouts := map named names; slides := [] |}.

End LayoutSpec.

(** ** Outlines and runs *)

Module DeckSpec.
Import Pptx Json TemplateManager PPTXCreator LayoutSpec.

Definition is_str (v : value) : bool :=
  match v with JStr _ => true | _ => false end.

(** The field is absent or a string. *)
Definition text_ok (key : string) (items : list (string * value)) : bool :=
  match lookup key items with
  | Some v => is_str v
  | None => true
  end.

(** The field is absent, falsy or a string. *)
Definition optional_text_ok (key : string) (items : list (string * value)) : bool :=
  match lookup key items with
  | Some v => negb (truthy v) || is_str v
  | None => true
  end.

(** [bullets] is absent, falsy or iterates over strings. *)
Definition bullets_ok (items : list (string * value)) : bool :=
  match lookup "bullets" items with
  | Some v =>
      negb (truthy v)
      || match iter v with
         | Ok bullets => forallb is_str bullets
         | Raise _ => false
         end
  | None => true
  end.

(** An entry whose fields the content-slide routine can write. *)
Definition content_data_ok (items : list (string * value)) : bool :=
  text_ok "title" items && bullets_ok items && optional_text_ok "notes" items.

(** An entry whose fields every slide routine can write. *)
Definition slide_data_ok (items : list (string * value)) : bool :=
  content_data_ok items && optional_text_ok "subtitle" items.

(** [slide_type] is missing, or none of the three supported roles. *)
Definition unknown_slide_type (items : list (string * value)) : bool :=
  match lookup "slide_type" items with
  | Some v =>
      negb (eq_str v "title") && negb (eq_str v "section")
      && negb (eq_str v "content")
  | None => true
  end.

(** [slide_data.get("slide_type", "content")] for a dict. *)
Definition slide_type_of (items : list (string * value)) : value :=
  match lookup "slide_type" items with
  | Some v => v
  | None => JStr "content"
  end.

(** The layout index for a slide type: index 0 for [title]; the binding of
    [section], else index 0, for [section]; the binding of [content], else
    index 1 (index 0 for a single layout), for anything else. *)
Definition chosen_layout (prs : Presentation)
    (m : gmap string (option LayoutBinding)) (slide_type : value) : nat :=
  if eq_str slide_type "title" then 0
  else if eq_str slide_type "section" then
    match m !! "section" with
    | Some (Some b) => index b
    | _ => 0
    end
  else
    match m !! "content" with
    | Some (Some b) => index b
    | _ => if (1 <? length (slide_layouts prs))%nat then 1 else 0
    end.

(** A raw outline that is no mapping, or whose [slides] cannot be
    iterated. *)
Definition not_an_outline (raw : value) : bool :=
  match raw with
  | JDict items =>
      match lookup "slides" items with
      | Some JNull | Some (JBool _) | Some (JNum _) => true
      | _ => false
      end
  | _ => true
  end.

(** The presentation [create_presentation] starts from: the copy of the
    template at the output path, or the built-in one without a template. *)
Definition starts_from (default_presentation : Presentation)
    (template_path : option string) (output_path : string)
    (fs : gmap string File) (prs : Presentation) : Prop :=
  match path_given template_path with
  | Some t => fs !! t = Some (PptxFile prs) /\ String.eqb t output_path = false
  | None => prs = default_presentation
  end.

Definition with_notes (sl : Slide) (notes : option string) : Slide :=
  {| slide_layout := slide_layout sl; shapes := shapes sl; notes_text := notes |}.

(** Sample inputs. *)

Definition body_layout : Layout :=
  {| layout_name := "Title and Content";
     layout_placeholders :=
       [ {| ph_idx := 0; ph_type := 1; ph_name := "Title 1" |};
         {| ph_idx := 1; ph_type := 7; ph_name := "Content Placeholder 2" |} ] |}.

Definition blank_notes_entry : list (string * value) :=
  [ ("slide_type", JStr "content"); ("title", JStr "T"); ("notes", JStr "   ") ].

Definition notes_entry : list (string * value) :=
  [ ("slide_type", JStr "content"); ("title", JStr "T");
    ("bullets", JList [JStr "A"; JStr "B"; JStr "C"]);
    ("notes", JStr (" first " +:+ String Py.newline (String Py.newline " second"))) ].

Definition chart_entry : list (string * value) :=
  [ ("slide_type", JStr "chart"); ("title", JStr "T");
    ("bullets", JList [JStr "A"]) ].

Definition numeric_notes_entry : list (string * value) :=
  [ ("slide_type", JStr "chart"); ("title", JStr "T"); ("notes", JNum 5) ].

Definition title_entry : list (string * value) :=
  [ ("slide_type", JStr "title"); ("title", JStr "Deck") ].

Definition deck_template : Presentation :=
  {| slide_layouts := [named "Title Slide"; body_layout]; slides := [] |}.

Definition title_second_template : Presentation :=
  template ["Blank"; "Title Slide"].

Definition files : gmap string File :=
  {[ "template.pptx" := PptxFile deck_template ]}.

Definition outline_without_slides : value :=
  JDict [ ("presentation_title", JStr "Deck") ].

Definition outline_numeric_notes : value :=
  JDict [ ("slides", JList [JDict numeric_notes_entry]) ].

Definition outline_bad_entry : value :=
  JDict [ ("slides", JList [JDict title_entry; JNum 5]) ].

End DeckSpec.

(** ** Lines of notes *)

(** Only white space. *)
Fixpoint blank (s : string) : bool :=
  match s with
  | "" => true
  | String c s' => Py.is_space c && blank s'
  end.

(** A line [format_slide_notes] keeps as it is: not empty, no white space at
    either end. *)
Definition clean_line (line : string) : Prop :=
  Py.truthy line = true /\ Py.strip line = line.

(** The characters of the lines, one more for each line. *)
Definition weight (lines : list string) : nat :=
  fold_right (fun line n => S (String.length line) + n) 0 lines.

(** ** Style names *)



(** ** Templates up to case *)

(** The presentation with every layout name in lower case. *)
Definition lower_names (prs : Pptx.Presentation) : Pptx.Presentation :=
  {| Pptx.slide_layouts :=
       map (fun l => {| Pptx.layout_name := Py.lower (Pptx.layout_name l);
                        Pptx.layout_placeholders := Pptx.layout_placeholders l |})
           (Pptx.slide_layouts prs);
     Pptx.slides := Pptx.slides prs |}.

(** The layout index of each role of a layout map. *)
Definition bound_index (m : gmap string (option TemplateManager.LayoutBinding))
    (key : string) : option (option nat) :=
  match m !! key with
  | Some (Some b) => Some (Some (TemplateManager.index b))
  | Some None => Some None
  | None => None
  end.

(** ** Placeholders of a slide *)

Module ShapeSpec.
Import Pptx Json PPTXCreator.

(** The position of the last shape that satisfies [p], counted from
    [start]. *)
Fixpoint last_index_from (p : Shape -> bool) (start : nat) (shapes : list Shape)
  : option nat :=
  match shapes with
  | [] => None
  | sh :: rest =>
      match last_index_from p (S start) rest with
      | Some i => Some i
      | None => if p sh then Some start else None
      end
  end.

Definition last_index (p : Shape -> bool) (shapes : list Shape) : option nat :=
  last_index_from p 0 shapes.

(** A placeholder of kind 1. *)
Definition is_title_shape (sh : Shape) : bool :=
  is_placeholder sh && (placeholder_type sh =? 1)%Z.

(** A placeholder of kind 2 (and so not of kind 1). *)
Definition is_subtitle_shape (sh : Shape) : bool :=
  is_placeholder sh && (placeholder_type sh =? 2)%Z.

(** A placeholder of kind 2, 3, 7, 8 or 18. *)
Definition is_body_shape (sh : Shape) : bool :=
  is_placeholder sh && is_content_type (placeholder_type sh).

(** The paragraphs the bullet loop writes for the texts. *)
Definition bullet_paragraphs (texts : list string) : list TextParagraph :=
  map (fun t => {| p_text := t; p_level := 0 |}) texts.


End ShapeSpec.
(** ** Outlines that can be populated *)

Module RunSpec.
Import Pptx Json TemplateManager PPTXCreator DeckSpec.


(** The layout index of each entry, as the populator chooses it. *)
Definition entry_layout (prs : Presentation)
    (m : gmap string (option LayoutBinding)) (entry : value) : nat :=
  chosen_layout prs m (slide_type_of (items_of entry)).

Definition two_entry_outline : value :=
  JDict [("slides", JList [JDict title_entry; JDict notes_entry])].

End RunSpec.

(** ** Prompts and responses *)

Module PromptSpec.
Import Json DocxParser AIGenerator.

Definition sample_content : Content :=
  {| title := "Report";
     headings := [{| level := 1; heading_text := "Intro" |}];
     paragraphs := ["first"; "second"];
     sections := [{| heading := {| level := 1; heading_text := "Intro" |};
                     content := ["first"; "second"] |}] |}.

(** A response wrapped in a fence, with white space around it. *)
Definition fenced_response : string :=
  " ```json" +:+ nl +:+ "{}" +:+ nl +:+ "``` ".

End PromptSpec.

(** * Properties *)

(** ** Strings *)

Section StringFacts.

Lemma lstrip_starts_clean s : starts_clean (Py.lstrip s).
Proof.
  induction s as [|c s IH]; simpl; [exact I|].
  destruct (Py.is_space c) eqn:Hc; [exact IH|exact Hc].
Qed.

Lemma lstrip_clean s : starts_clean s -> Py.lstrip s = s.
Proof. destruct s as [|c s]; simpl; [reflexivity|]. intros ->. reflexivity. Qed.

Lemma rstrip_idem s : Py.rstrip (Py.rstrip s) = Py.rstrip s.
Proof.
  induction s as [|c s IH]; simpl; [reflexivity|].
  destruct (Py.rstrip s) as [|c' r] eqn:Hr.
  - destruct (Py.is_space c) eqn:Hc; simpl; [reflexivity|].
    rewrite Hc. reflexivity.
  - simpl in IH |- *.
    destruct (Py.rstrip r) as [|c'' r'] eqn:Hr'.
    + destruct (Py.is_space c') eqn:Hc'; [discriminate|].
      injection IH as <-. reflexivity.
    + rewrite IH. reflexivity.
Qed.

Lemma rstrip_starts_clean s : starts_clean s -> starts_clean (Py.rstrip s).
Proof.
  destruct s as [|c s]; simpl; [trivial|]. intros Hc.
  destruct (Py.rstrip s); [rewrite Hc|]; exact Hc.
Qed.

Lemma strip_idem s : Py.strip (Py.strip s) = Py.strip s.
Proof.
  unfold Py.strip.
  rewrite (lstrip_clean (Py.rstrip (Py.lstrip s))).
  - apply rstrip_idem.
  - apply rstrip_starts_clean, lstrip_starts_clean.
Qed.

Lemma lstrip_has_char c s : has_char c s = false -> has_char c (Py.lstrip s) = false.
Proof.
  induction s as [|c' s IH]; simpl; [trivial|]. intros H.
  apply orb_false_iff in H as [H1 H2].
  destruct (Py.is_space c'); [auto|]. simpl. rewrite H1. exact H2.
Qed.

Lemma rstrip_has_char c s : has_char c s = false -> has_char c (Py.rstrip s) = false.
Proof.
  induction s as [|c' s IH]; simpl; [trivial|]. intros H.
  apply orb_false_iff in H as [H1 H2]. specialize (IH H2).
  destruct (Py.rstrip s) as [|c'' r].
  - destruct (Py.is_space c'); simpl; [reflexivity|]. rewrite H1. reflexivity.
  - simpl in IH |- *. rewrite H1. exact IH.
Qed.

Lemma strip_has_char c s : has_char c s = false -> has_char c (Py.strip s) = false.
Proof. intros H. apply rstrip_has_char, lstrip_has_char, H. Qed.

Lemma split_not_nil sep s : Py.split sep s <> [].
Proof.
  destruct s as [|c s]; simpl; [discriminate|].
  destruct (Ascii.eqb c sep); [discriminate|].
  destruct (Py.split sep s); discriminate.
Qed.

Lemma split_has_char sep s :
  Forall (fun piece => has_char sep piece = false) (Py.split sep s).
Proof.
  induction s as [|c s IH]; simpl.
  - constructor; [reflexivity|constructor].
  - destruct (Ascii.eqb c sep) eqn:Hc.
    + constructor; [reflexivity|exact IH].
    + destruct (Py.split sep s) as [|h t].
      * constructor; [simpl; rewrite Hc; reflexivity|constructor].
      * inversion IH as [|? ? Hh Ht]; subst.
        constructor; [simpl; rewrite Hc; exact Hh|exact Ht].
Qed.

Lemma split_clean sep s : has_char sep s = false -> Py.split sep s = [s].
Proof.
  induction s as [|c s IH]; simpl; [reflexivity|]. intros H.
  apply orb_false_iff in H as [H1 H2].
  rewrite H1, (IH H2). reflexivity.
Qed.

Lemma split_app sep x rest :
  has_char sep x = false ->
  Py.split sep (x +:+ String sep rest) = x :: Py.split sep rest.
Proof.
  induction x as [|c x IH]; simpl; intros H.
  - rewrite Ascii.eqb_refl. reflexivity.
  - apply orb_false_iff in H as [H1 H2].
    rewrite H1, (IH H2). reflexivity.
Qed.

(** Splitting a joined list of separator-free lines gives the lines back. *)
Lemma split_join sep l :
  l <> [] ->
  Forall (fun line => has_char sep line = false) l ->
  Py.split sep (Py.join (String sep "") l) = l.
Proof.
  induction l as [|x l IH]; [congruence|]. intros _ Hall.
  inversion Hall as [|? ? Hx Hl]; subst.
  destruct l as [|y l].
  - simpl. apply split_clean, Hx.
  - change (Py.join (String sep "") (x :: y :: l))
      with (x +:+ String sep (Py.join (String sep "") (y :: l))).
    rewrite split_app by exact Hx.
    rewrite IH; [reflexivity|discriminate|exact Hl].
Qed.

End StringFacts.

(** ** utils.py: [format_slide_notes] *)

Section FormatSlideNotes.

Lemma truthy_nonempty s : Py.truthy s = negb (String.eqb s "").
Proof. destruct s; reflexivity. Qed.

Lemma format_slide_notes_trim_lines notes :
  Utils.format_slide_notes notes = trim_lines notes.
Proof.
  unfold Utils.format_slide_notes, trim_lines.
  destruct notes as [|c notes]; [reflexivity|].
  cbv beta iota zeta delta [Py.truthy negb].
  f_equal. apply filter_ext. intros line. apply truthy_nonempty.
Qed.

Lemma kept_lines_clean notes :
  Forall (fun line => has_char Py.newline line = false
                      /\ Py.strip line = line
                      /\ Py.truthy line = true) (kept_lines notes).
Proof.
  unfold kept_lines.
  pose proof (split_has_char Py.newline notes) as Hsplit.
  induction Hsplit as [|piece pieces Hpiece _ IH]; simpl; [constructor|].
  destruct (Py.truthy (Py.strip piece)) eqn:Ht; [|exact IH].
  constructor; [|exact IH].
  repeat split; [apply strip_has_char, Hpiece|apply strip_idem|exact Ht].
Qed.

Lemma format_slide_notes_kept notes :
  Utils.format_slide_notes notes = Py.join (String Py.newline "") (kept_lines notes).
Proof. destruct notes; reflexivity. Qed.

Lemma kept_lines_join notes :
  kept_lines (Py.join (String Py.newline "") (kept_lines notes)) = kept_lines notes.
Proof.
  pose proof (kept_lines_clean notes) as Hclean.
  destruct (kept_lines notes) as [|x l] eqn:Hk.
  - reflexivity.
  - rewrite <- Hk in *. unfold kept_lines at 1.
    rewrite split_join.
    + clear Hk. induction Hclean as [|line lines (_ & Hs & Ht) _ IH]; simpl.
      * reflexivity.
      * rewrite Hs, Ht. f_equal. exact IH.
    + rewrite Hk. discriminate.
    + eapply Forall_impl; [exact Hclean|]. simpl. tauto.
Qed.

(** C10. [format_slide_notes] is idempotent: formatting formatted notes
    changes nothing. *)
Theorem format_slide_notes_idempotent notes :
  Utils.format_slide_notes (Utils.format_slide_notes notes) =
  Utils.format_slide_notes notes.
Proof.
  rewrite !format_slide_notes_kept. f_equal. apply kept_lines_join.
Qed.

End FormatSlideNotes.

(** ** docx_parser.py: headings and sections *)

Section Segmentation.
Import DocxParser DocSpec.

Lemma for_each_app {S A} (body : S -> A -> result S) (l1 l2 : list A) (s : S) :
  for_each body (l1 ++ l2) s = let* s' := for_each body l1 s in for_each body l2 s'.
Proof.
  revert s. induction l1 as [|x l1 IH]; intros s; simpl; [reflexivity|].
  destruct (body s x); simpl; [apply IH|reflexivity].
Qed.

Lemma words_not_nil c s : Py.is_space c = false -> Py.words (String c s) <> [].
Proof.
  intros Hc. simpl. rewrite Hc.
  destruct s as [|c' s]; [discriminate|].
  destruct (Py.is_space c'); [discriminate|].
  destruct (Py.words (String c' s)); discriminate.
Qed.

Lemma last_item_words_heading p :
  is_heading p = true -> exists token, Py.last_item (Py.words (style_name p)) = Ok token.
Proof.
  unfold is_heading, Py.startswith, Py.last_item. intros H.
  destruct (style_name p) as [|c s]; [discriminate|].
  simpl in H. apply andb_true_iff in H as [Hc _].
  apply Ascii.eqb_eq in Hc. subst c.
  pose proof (words_not_nil "H" s eq_refl) as Hne.
  destruct (last (Py.words (String "H" s))) as [token|] eqn:Hlast; [eauto|].
  apply last_None in Hlast. contradiction.
Qed.

(** The only exception level parsing raises on a heading is [ValueError]. *)
Lemma heading_level_raise p e :
  is_heading p = true -> heading_level p = Raise e -> e = ValueError.
Proof.
  intros Hh. unfold heading_level.
  destruct (last_item_words_heading p Hh) as [token ->]. simpl.
  unfold Py.int. destruct (match Py.strip token with "" => _ | _ => _ end); congruence.
Qed.

Lemma malformed_heading_raise p :
  malformed_heading p = true -> heading_level p = Raise ValueError.
Proof.
  unfold malformed_heading. intros [Hh Hok]%andb_true_iff.
  destruct (heading_level p) as [lvl|e] eqn:Hl; [discriminate|].
  f_equal. eapply heading_level_raise; eassumption.
Qed.

Lemma headings_loop_raise doc acc :
  existsb malformed_heading doc = true ->
  for_each
    (fun headings p =>
       if is_heading p then
         let* lvl := heading_level p in
         Ok (headings ++ [{| level := lvl; heading_text := Py.strip (text p) |}])
       else Ok headings)
    doc acc = Raise ValueError.
Proof.
  revert acc. induction doc as [|p doc IH]; intros acc; simpl; [discriminate|].
  destruct (malformed_heading p) eqn:Hm; simpl.
  - intros _. pose proof Hm as [Hh _]%andb_true_iff.
    rewrite Hh, (malformed_heading_raise p Hm). reflexivity.
  - intros Hrest. unfold malformed_heading in Hm.
    destruct (is_heading p); simpl in *; [|apply IH, Hrest].
    destruct (heading_level p); simpl in *; [apply IH, Hrest|discriminate].
Qed.

Lemma sections_loop_raise doc st :
  existsb malformed_heading doc = true ->
  for_each sections_step doc st = Raise ValueError.
Proof.
  revert st. induction doc as [|p doc IH]; intros [[secs cur] c]; simpl; [discriminate|].
  destruct (malformed_heading p) eqn:Hm; simpl.
  - intros _. pose proof Hm as [Hh _]%andb_true_iff.
    rewrite Hh, (malformed_heading_raise p Hm). reflexivity.
  - intros Hrest. unfold malformed_heading in Hm.
    destruct (is_heading p); simpl in *.
    + destruct (heading_level p); simpl in *; [apply IH, Hrest|discriminate].
    + destruct (Py.truthy (Py.strip (text p)) && bool_decide (is_Some cur));
        simpl; apply IH, Hrest.
Qed.

(** C2 (as amended). A heading paragraph whose style name does not end in an
    integer makes level parsing raise [ValueError]; nothing catches it, so
    the extraction of headings, of sections and of the whole content fails. *)
Theorem malformed_heading_is_fatal (doc : Document) :
  existsb malformed_heading doc = true ->
  _extract_headings (Some doc) = Raise ValueError
  /\ _extract_sections (Some doc) = Raise ValueError
  /\ extract_content (Ok doc) = Raise ValueError.
Proof.
  intros H. unfold extract_content, _extract_headings, _extract_sections.
  rewrite (headings_loop_raise doc [] H), (sections_loop_raise doc _ H).
  repeat split.
Qed.

Lemma malformed_heading_is_fatal_witness :
  existsb malformed_heading doc_mixed = true
  /\ _extract_headings (Some doc_mixed) = Raise ValueError
  /\ _extract_sections (Some doc_mixed) = Raise ValueError
  /\ extract_content (Ok doc_mixed) = Raise ValueError.
Proof.
  split; [reflexivity|].
  apply (malformed_heading_is_fatal doc_mixed). reflexivity.
Defined.

(** C2 (as stated) fails: the style name "Heading Two" starts with
    "Heading" and ends in a token that is no integer; the level does not
    default to 1, the extraction raises. *)
Lemma malformed_heading_not_defaulted :
  is_heading (hd {| style_name := ""; text := "" |} doc_heading_two) = true
  /\ _extract_headings (Some doc_heading_two)
     <> Ok [ {| level := 1; heading_text := "Intro" |} ]
  /\ _extract_headings (Some doc_heading_two) = Raise ValueError
  /\ _extract_sections (Some doc_heading_two) = Raise ValueError
  /\ is_ok (extract_content (Ok doc_heading_two)) = false.
Proof. repeat split. discriminate. Qed.

End Segmentation.

Section SectionExtraction.
Import DocxParser DocSpec.

(** Before the first heading nothing is collected. *)
Lemma loop_before_first_heading pre secs :
  no_heading pre = true ->
  for_each sections_step pre (secs, None, []) = Ok (secs, None, []).
Proof.
  induction pre as [|p pre IH]; simpl; [reflexivity|].
  intros [Hp Hpre]%andb_true_iff.
  apply negb_true_iff in Hp. rewrite Hp.
  rewrite andb_false_r. simpl. apply IH, Hpre.
Qed.

(** Under an open section the body texts are appended in order. *)
Lemma loop_section_body body secs h c :
  no_heading body = true ->
  for_each sections_step body (secs, Some h, c) =
  Ok (secs, Some h, c ++ body_content body).
Proof.
  revert c. induction body as [|p body IH]; intros c; simpl.
  - rewrite app_nil_r. reflexivity.
  - intros [Hp Hbody]%andb_true_iff.
    apply negb_true_iff in Hp. rewrite Hp.
    unfold body_content. simpl.
    destruct (Py.truthy (Py.strip (text p))); simpl.
    + rewrite (IH _ Hbody). unfold body_content.
      rewrite <- app_assoc. reflexivity.
    + apply IH, Hbody.
Qed.

Lemma loop_blocks blocks secs cur c :
  forallb block_ok blocks = true ->
  exists st,
    for_each sections_step (flatten blocks) (secs, cur, c) = Ok st
    /\ flush (fst (fst st)) (snd (fst st)) (snd st) =
       flush secs cur c ++ map section_of_block blocks.
Proof.
  revert secs cur c. induction blocks as [|[h body] blocks IH]; intros secs cur c.
  - intros _. exists (secs, cur, c). simpl. rewrite app_nil_r. split; reflexivity.
  - simpl. intros [Hb Hrest]%andb_true_iff.
    unfold block_ok in Hb. simpl in Hb.
    apply andb_true_iff in Hb as [[Hh Hlvl]%andb_true_iff Hbody].
    unfold flatten. simpl. rewrite Hh.
    destruct (heading_level h) as [lvl|e] eqn:Hl; [|discriminate]. simpl.
    rewrite for_each_app, (loop_section_body body _ _ _ Hbody). simpl.
    destruct (IH (flush secs cur c)
                 (Some {| level := lvl; heading_text := Py.strip (text h) |})
                 (body_content body) Hrest) as (st & Hrun & Hflush).
    exists st. split; [exact Hrun|].
    rewrite Hflush. simpl. rewrite <- app_assoc. simpl.
    unfold section_of_block, parsed_level. simpl. rewrite Hl. reflexivity.
Qed.

Lemma block_ok_of_levels blocks pre :
  levels_parse (pre ++ flatten blocks) = true ->
  forallb (fun b => is_heading (fst b) && no_heading (snd b)) blocks = true ->
  forallb block_ok blocks = true.
Proof.
  unfold levels_parse. rewrite forallb_app. intros [_ Hl]%andb_true_iff.
  induction blocks as [|[h body] blocks IH]; simpl; [reflexivity|].
  intros [[Hh Hbody]%andb_true_iff Hrest]%andb_true_iff.
  unfold flatten in Hl. simpl in Hl.
  apply andb_true_iff in Hl as [Hm Hl].
  rewrite forallb_app in Hl. apply andb_true_iff in Hl as [_ Hl].
  simpl in Hh, Hbody. unfold block_ok. simpl.
  unfold malformed_heading in Hm. rewrite Hh in Hm |- *. simpl in Hm.
  rewrite negb_involutive in Hm. rewrite Hm, Hbody. simpl.
  apply IH; assumption.
Qed.

Lemma headings_of_blocks blocks pre :
  no_heading pre = true ->
  forallb (fun b => is_heading (fst b) && no_heading (snd b)) blocks = true ->
  List.filter is_heading (pre ++ flatten blocks) = map fst blocks.
Proof.
  assert (Hnone : forall ps, no_heading ps = true -> List.filter is_heading ps = []).
  { induction ps as [|p ps IH]; simpl; [reflexivity|].
    intros [Hp Hps]%andb_true_iff. apply negb_true_iff in Hp.
    rewrite Hp. apply IH, Hps. }
  intros Hpre Hblocks. rewrite List.filter_app, (Hnone _ Hpre). simpl.
  induction blocks as [|[h body] blocks IH]; simpl; [reflexivity|].
  simpl in Hblocks.
  apply andb_true_iff in Hblocks as [[Hh Hbody]%andb_true_iff Hrest].
  simpl in Hh, Hbody. unfold flatten. simpl. rewrite Hh.
  rewrite List.filter_app, (Hnone _ Hbody). simpl. f_equal. apply IH, Hrest.
Qed.

(** The sections of a decomposed document, one per block. *)
Lemma extract_sections_blocks (pre : list Paragraph) (blocks : list Block) :
  levels_parse (pre ++ flatten blocks) = true ->
  no_heading pre = true ->
  forallb (fun b => is_heading (fst b) && no_heading (snd b)) blocks = true ->
  _extract_sections (Some (pre ++ flatten blocks)) = Ok (map section_of_block blocks).
Proof.
  intros Hlevels Hpre Hblocks.
  pose proof (block_ok_of_levels blocks pre Hlevels Hblocks) as Hok.
  unfold _extract_sections.
  rewrite for_each_app, (loop_before_first_heading pre [] Hpre). simpl.
  destruct (loop_blocks blocks [] None [] Hok) as ([[secs cur] c] & -> & Hflush).
  simpl in *. rewrite Hflush. reflexivity.
Qed.

(** C6 (as amended). Take a document whose heading paragraphs all carry a
    level that parses, written as the paragraphs before the first heading
    followed by blocks, each a heading paragraph and the heading-free
    paragraphs up to the next heading. Then [_extract_sections] returns one
    section per block, in source order: the heading of the block with, as
    content, the trimmed non-empty texts of its body. The paragraphs before
    the first heading are dropped; with no block the result is empty. *)
Theorem sections_follow_headings (doc pre : list Paragraph) (blocks : list Block) :
  levels_parse doc = true ->
  doc = pre ++ flatten blocks ->
  no_heading pre = true ->
  forallb (fun b => is_heading (fst b) && no_heading (snd b)) blocks = true ->
  _extract_sections (Some doc) = Ok (map section_of_block blocks)
  /\ map (fun s => heading_text (heading s)) (map section_of_block blocks)
     = map (fun p => Py.strip (text p)) (List.filter is_heading doc)
  /\ length (map section_of_block blocks) = length (List.filter is_heading doc).
Proof.
  intros Hlevels -> Hpre Hblocks.
  rewrite (headings_of_blocks blocks pre Hpre Hblocks).
  split; [|split].
  - apply extract_sections_blocks; assumption.
  - rewrite !map_map. reflexivity.
  - rewrite !length_map. reflexivity.
Qed.

Lemma sections_follow_headings_witness :
  levels_parse doc_two_sections = true
  /\ _extract_sections (Some doc_two_sections) =
     Ok [ {| heading := {| level := 1; heading_text := "Intro" |}; content := ["a"] |};
          {| heading := {| level := 2; heading_text := "Background" |};
             content := ["b"] |} ].
Proof.
  split; [reflexivity|].
  apply (sections_follow_headings doc_two_sections
           (fst (split_blocks doc_two_sections))
           (snd (split_blocks doc_two_sections)));
    reflexivity.
Defined.

(** Every document decomposes in that way, so the theorem above speaks of
    every document whose heading levels parse. *)
Lemma split_blocks_decomposes (doc : Document) :
  doc = fst (split_blocks doc) ++ flatten (snd (split_blocks doc))
  /\ no_heading (fst (split_blocks doc)) = true
  /\ forallb (fun b => is_heading (fst b) && no_heading (snd b))
             (snd (split_blocks doc)) = true.
Proof.
  induction doc as [|p doc (Heq & Hpre & Hblocks)]; simpl; [repeat split|].
  destruct (is_heading p) eqn:Hp; simpl.
  - unfold flatten in *. simpl. rewrite <- Heq, Hp, Hpre, Hblocks. repeat split.
  - rewrite <- Heq, Hp, Hpre, Hblocks. repeat split.
Qed.

Corollary extract_sections_total (doc : Document) :
  levels_parse doc = true ->
  _extract_sections (Some doc) = Ok (map section_of_block (snd (split_blocks doc))).
Proof.
  intros Hlevels.
  destruct (split_blocks_decomposes doc) as (Heq & Hpre & Hblocks).
  rewrite Heq in Hlevels. rewrite Heq at 1.
  apply extract_sections_blocks; assumption.
Qed.

Corollary no_headings_no_sections (doc : Document) :
  no_heading doc = true -> _extract_sections (Some doc) = Ok [].
Proof.
  intros Hnone. unfold _extract_sections.
  rewrite (loop_before_first_heading doc [] Hnone). reflexivity.
Qed.

(** C6 (as stated) fails on a document with a heading whose level does not
    parse: it has one heading paragraph and yields no section at all. *)
Lemma heading_without_section :
  length (List.filter is_heading doc_heading_two) = 1%nat
  /\ _extract_sections (Some doc_heading_two) = Raise ValueError
  /\ is_ok (_extract_sections (Some doc_heading_two)) = false.
Proof. repeat split. Qed.

End SectionExtraction.

(** ** template_manager.py: layout resolution *)

Section LayoutResolution.
Import Pptx TemplateManager LayoutSpec.

Lemma match_type_spec i layout (m : gmap string (option LayoutBinding)) k names v :
  m !! k = Some v ->
  exists m1,
    match_type i layout m (k, names) = Ok m1
    /\ m1 !! k = Some (step_binding names v (i, layout))
    /\ (forall k', k' <> k -> m1 !! k' = m !! k').
Proof.
  intros Hk. unfold match_type, step_binding, getitem. simpl.
  destruct (name_matches names (layout_name layout)).
  - rewrite Hk. simpl. destruct v as [b|].
    + exists m. auto.
    + eexists. split; [reflexivity|]. split.
      * apply lookup_insert_eq.
      * intros k' Hne. apply lookup_insert_ne. congruence.
  - exists m. destruct v; auto.
Qed.

(** The inner loop, for any table of roles with distinct keys. *)
Lemma match_types_spec types i layout (m : gmap string (option LayoutBinding)) :
  NoDup (map fst types) ->
  (forall k, In k (map fst types) -> is_Some (m !! k)) ->
  exists m',
    for_each (match_type i layout) types m = Ok m'
    /\ (forall k names old, In (k, names) types -> m !! k = Some old ->
          m' !! k = Some (step_binding names old (i, layout)))
    /\ (forall k, ~ In k (map fst types) -> m' !! k = m !! k).
Proof.
  revert m. induction types as [|[k0 names0] types IH]; intros m Hnodup Hkeys.
  - exists m. simpl. split; [reflexivity|]. split; [intros ? ? ? []|reflexivity].
  - apply NoDup_cons in Hnodup as [Hfresh Hnodup]. simpl in Hfresh.
    rewrite list_elem_of_In in Hfresh.
    destruct (Hkeys k0) as [v Hv]; [left; reflexivity|].
    destruct (match_type_spec i layout m k0 names0 v Hv) as (m1 & Hstep & Hk0 & Hother).
    destruct (IH m1 Hnodup) as (m' & Hrun & Hin & Hout).
    { intros k Hk. rewrite Hother; [apply Hkeys; right; exact Hk|].
      intros ->. contradiction. }
    exists m'. cbn [for_each]. rewrite Hstep. cbn [bind].
    split; [exact Hrun|]. split.
    + intros k names old [Heq|Hin'] Hold.
      * injection Heq as <- <-. rewrite Hout by exact Hfresh.
        rewrite Hk0. congruence.
      * assert (k <> k0) as Hne.
        { intros ->. apply Hfresh. apply (in_map fst) in Hin'. exact Hin'. }
        apply Hin; [exact Hin'|]. rewrite Hother by exact Hne. exact Hold.
    + intros k Hk. simpl in Hk. rewrite Hout by tauto.
      apply Hother. intros ->. tauto.
Qed.

Lemma layout_types_nodup : NoDup (map fst SLIDE_LAYOUT_TYPES).
Proof. apply (bool_decide_unpack _). vm_compute. exact I. Qed.

(** The whole scan: every role of the table folds [step_binding] over the
    layouts in their order. *)
Lemma scan_spec items (m : gmap string (option LayoutBinding)) :
  (forall k, In k (map fst SLIDE_LAYOUT_TYPES) -> is_Some (m !! k)) ->
  exists m',
    for_each match_layout items m = Ok m'
    /\ (forall k names old, In (k, names) SLIDE_LAYOUT_TYPES -> m !! k = Some old ->
          m' !! k = Some (fold_left (step_binding names) items old)).
Proof.
  revert m. induction items as [|[i layout] items IH]; intros m Hkeys.
  - exists m. simpl. auto.
  - destruct (match_types_spec SLIDE_LAYOUT_TYPES i layout m layout_types_nodup Hkeys)
      as (m1 & Hstep & Hin & _).
    destruct (IH m1) as (m' & Hrun & Hfold).
    { intros k Hk. apply in_map_iff in Hk as ([k' names] & <- & Hk).
      destruct (Hkeys k') as [old Hold].
      { apply in_map_iff. exists (k', names). split; [reflexivity|exact Hk]. }
      cbn [fst]. rewrite (Hin _ _ _ Hk Hold). eauto. }
    exists m'. cbn [for_each]. unfold match_layout at 1. cbn [fst snd].
    rewrite Hstep. cbn [bind]. split; [exact Hrun|].
    intros k names old Hk Hold. apply (Hfold k names); [exact Hk|].
    apply Hin; assumption.
Qed.

Lemma fold_step_bound names items b :
  fold_left (step_binding names) items (Some b) = Some b.
Proof. induction items as [|item items IH]; simpl; [reflexivity|exact IH]. Qed.

Lemma fold_step_first_match names items :
  fold_left (step_binding names) items None =
  (fun item => bind_layout (fst item) (snd item)) <$> first_match names items.
Proof.
  induction items as [|item items IH]; simpl; [reflexivity|].
  destruct (name_matches names (layout_name (snd item))); simpl.
  - apply fold_step_bound.
  - exact IH.
Qed.

Lemma scan_initial layouts :
  exists m,
    for_each match_layout (Py.enumerate layouts) initial_layouts = Ok m
    /\ (forall k, In k (map fst SLIDE_LAYOUT_TYPES) ->
          m !! k = Some (first_matching k layouts)).
Proof.
  destruct (scan_spec (Py.enumerate layouts) initial_layouts) as (m & Hrun & Hfold).
  { simpl. intros k [<-|[<-|[<-|[<-|[<-|[]]]]]]; vm_compute; eauto. }
  exists m. split; [exact Hrun|].
  intros k Hk. unfold first_matching. rewrite <- fold_step_first_match.
  simpl in Hk.
  destruct Hk as [<-|[<-|[<-|[<-|[<-|[]]]]]];
    (apply Hfold; [simpl; tauto|reflexivity]).
Qed.

End LayoutResolution.

Section Resolution.
Import Pptx TemplateManager LayoutSpec.

(** [analyze_layouts] never raises, and binds the five roles as follows. *)
Lemma analyze_layouts_spec (prs : Presentation) :
  exists m,
    analyze_layouts prs = Ok m
    /\ m !! "title" = Some (resolved_title (slide_layouts prs))
    /\ m !! "content" = Some (resolved_content (slide_layouts prs))
    /\ m !! "section" = Some (resolved_section (slide_layouts prs))
    /\ m !! "picture" = Some (first_matching "picture" (slide_layouts prs))
    /\ m !! "blank" = Some (first_matching "blank" (slide_layouts prs)).
Proof.
  destruct (scan_initial (slide_layouts prs)) as (m1 & Hscan & Hkeys).
  pose proof (Hkeys "title" ltac:(simpl; tauto)) as Ht.
  pose proof (Hkeys "content" ltac:(simpl; tauto)) as Hc.
  pose proof (Hkeys "section" ltac:(simpl; tauto)) as Hs.
  pose proof (Hkeys "picture" ltac:(simpl; tauto)) as Hp.
  pose proof (Hkeys "blank" ltac:(simpl; tauto)) as Hb.
  clear Hkeys.
  unfold resolved_section, resolved_title, resolved_content.
  unfold analyze_layouts, layout_at. rewrite Hscan. cbn [bind].
  generalize dependent (first_matching "title" (slide_layouts prs)).
  generalize dependent (first_matching "content" (slide_layouts prs)).
  generalize dependent (first_matching "section" (slide_layouts prs)).
  generalize dependent (first_matching "picture" (slide_layouts prs)).
  generalize dependent (first_matching "blank" (slide_layouts prs)).
  clear Hscan. intros fb Hb fp Hp fs Hs fc Hc ft Ht.
  unfold getitem.
  destruct (slide_layouts prs) as [|l0 [|l1 ls]], ft as [bt|], fc as [bc|], fs as [bs|];
    simplify_map_eq; eexists; (split; [reflexivity|]); simplify_map_eq; done.
Qed.

Lemma first_match_from names layouts start i l :
  first_match names (Py.enumerate_from start layouts) = Some (i, l) ->
  start <= i
  /\ layouts !! (i - start) = Some l
  /\ name_matches names (layout_name l) = true
  /\ (forall i' l', i' < i - start -> layouts !! i' = Some l' ->
        name_matches names (layout_name l') = false).
Proof.
  revert start. induction layouts as [|l0 layouts IH]; intros start; simpl.
  - discriminate.
  - destruct (name_matches names (layout_name l0)) eqn:Hm.
    + intros [= <- <-]. rewrite Nat.sub_diag. simpl.
      repeat split; [lia|exact Hm|]. intros i' l' Hlt. lia.
    + intros Hfind. destruct (IH (S start) Hfind) as (Hle & Hat & Hyes & Hno).
      replace (i - start) with (S (i - S start)) by lia. simpl.
      repeat split; [lia|exact Hat|exact Hyes|].
      intros [|i'] l' Hlt Hl'; simpl in Hl'.
      * congruence.
      * apply (Hno i' l'); [lia|exact Hl'].
Qed.

Lemma first_match_exists names layouts start j lj :
  layouts !! j = Some lj ->
  name_matches names (layout_name lj) = true ->
  exists i l, first_match names (Py.enumerate_from start layouts) = Some (i, l).
Proof.
  revert start j. induction layouts as [|l0 layouts IH]; intros start j; simpl.
  - discriminate.
  - destruct (name_matches names (layout_name l0)) eqn:Hm; [eauto|].
    destruct j as [|j]; simpl.
    + intros [= ->]. congruence.
    + intros Hj Hlj. apply (IH (S start) j Hj Hlj).
Qed.

(** The binding of a role of the table when some layout matches it: the
    first matching layout, fallbacks or not. *)
Lemma matched_role_binding (prs : Presentation) key b :
  In key (map fst SLIDE_LAYOUT_TYPES) ->
  first_matching key (slide_layouts prs) = Some b ->
  exists m, analyze_layouts prs = Ok m /\ m !! key = Some (Some b).
Proof.
  intros Hkey Hfirst.
  destruct (analyze_layouts_spec prs) as (m & Hrun & Ht & Hc & Hs & Hp & Hb).
  exists m. split; [exact Hrun|].
  unfold resolved_section, resolved_title, resolved_content in *.
  simpl in Hkey.
  destruct Hkey as [<-|[<-|[<-|[<-|[<-|[]]]]]]; rewrite Hfirst in *; assumption.
Qed.

(** C7. Layout matching is first-match-wins: when two layouts [i < j] both
    match the names a role accepts, the role is bound to the matching layout
    of least index, which is at most [i]; the later layout never replaces
    it. *)
Theorem first_match_wins (prs : Presentation) (key : string) (i j : nat)
    (li lj : Layout) :
  In key (map fst SLIDE_LAYOUT_TYPES) ->
  i < j ->
  slide_layouts prs !! i = Some li ->
  slide_layouts prs !! j = Some lj ->
  name_matches (accepted key) (layout_name li) = true ->
  name_matches (accepted key) (layout_name lj) = true ->
  exists m k lk,
    analyze_layouts prs = Ok m
    /\ m !! key = Some (Some (bind_layout k lk))
    /\ k <= i /\ k < j
    /\ slide_layouts prs !! k = Some lk
    /\ name_matches (accepted key) (layout_name lk) = true
    /\ (forall k' l', k' < k -> slide_layouts prs !! k' = Some l' ->
          name_matches (accepted key) (layout_name l') = false)
    /\ ((forall k' l', k' < i -> slide_layouts prs !! k' = Some l' ->
           name_matches (accepted key) (layout_name l') = false) ->
        k = i /\ lk = li).
Proof.
  intros Hkey Hij Hi Hj Hmi Hmj.
  destruct (first_match_exists (accepted key) (slide_layouts prs) 0 i li Hi Hmi)
    as (k & lk & Hfirst).
  destruct (first_match_from _ _ _ _ _ Hfirst) as (_ & Hk & Hmk & Hless).
  rewrite Nat.sub_0_r in Hk, Hless.
  destruct (matched_role_binding prs key (bind_layout k lk) Hkey) as (m & Hrun & Hm).
  { unfold first_matching, Py.enumerate. rewrite Hfirst. reflexivity. }
  assert (k <= i) as Hki.
  { destruct (Nat.le_gt_cases k i) as [Hle|Hgt]; [exact Hle|].
    rewrite (Hless i li Hgt Hi) in Hmi. discriminate. }
  exists m, k, lk.
  split; [exact Hrun|]. split; [exact Hm|]. split; [exact Hki|].
  split; [lia|]. split; [exact Hk|]. split; [exact Hmk|]. split; [exact Hless|].
  intros Hfirst_i.
  assert (k = i) as ->.
  { destruct (Nat.eq_dec k i) as [Heq|Hne]; [exact Heq|].
    rewrite (Hfirst_i k lk ltac:(lia) Hk) in Hmk. discriminate. }
  split; [reflexivity|congruence].
Qed.

Lemma first_match_wins_witness :
  exists m,
    analyze_layouts (template ["Blank"; "Two Content"; "Title and Content"]) = Ok m
    /\ m !! "content" = Some (Some (bind_layout 1 (named "Two Content"))).
Proof.
  destruct (first_match_wins
              (template ["Blank"; "Two Content"; "Title and Content"])
              "content" 1 2 (named "Two Content") (named "Title and Content"))
    as (m & k & lk & Hrun & Hm & Hk1 & _ & Hk & Hmk & _ & _).
  - simpl. tauto.
  - lia.
  - reflexivity.
  - reflexivity.
  - reflexivity.
  - reflexivity.
  - exists m. split; [exact Hrun|]. rewrite Hm.
    destruct k as [|[|k]]; [|injection Hk as <-; reflexivity|lia].
    injection Hk as <-. discriminate Hmk.
Defined.

(** With at least one layout, [title] and [section] are bound. *)
Lemma resolve_binds_title_section (prs : Presentation) :
  0 < length (slide_layouts prs) ->
  exists m bt bs,
    analyze_layouts prs = Ok m
    /\ m !! "title" = Some (Some bt) /\ m !! "section" = Some (Some bs).
Proof.
  intros Hlen.
  destruct (analyze_layouts_spec prs) as (m & Hrun & Ht & _ & Hs & _).
  assert (exists bt, resolved_title (slide_layouts prs) = Some bt) as [bt Hbt].
  { unfold resolved_title. destruct (first_matching "title" _); [eauto|].
    destruct (slide_layouts prs); [simpl in Hlen; lia|eauto]. }
  exists m, bt. unfold resolved_section in Hs. rewrite Hbt in *.
  destruct (first_matching "section" _) as [bs|]; eauto.
Qed.

(** With at least two layouts, [content] is bound as well. *)
Lemma resolve_binds_content (prs : Presentation) :
  1 < length (slide_layouts prs) ->
  exists m bc, analyze_layouts prs = Ok m /\ m !! "content" = Some (Some bc).
Proof.
  intros Hlen.
  destruct (analyze_layouts_spec prs) as (m & Hrun & _ & Hc & _).
  exists m. unfold resolved_content in Hc.
  destruct (first_matching "content" _) as [bc|]; [eauto|].
  destruct (slide_layouts prs) as [|l0 [|l1 ls]]; simpl in Hlen; try lia. eauto.
Qed.

(** C1 (the code at the failing inputs). A template with exactly one layout
    whose name matches none of the names accepted for [content] leaves
    [content] unbound, while [title] and [section] are bound to index 0. *)
Theorem single_layout_content_unbound (l0 : Layout) (old : list Slide) :
  name_matches (accepted "content") (layout_name l0) = false ->
  exists m,
    analyze_layouts {| slide_layouts := [l0]; slides := old |} = Ok m
    /\ m !! "content" = Some None
    /\ m !! "title" = Some (Some (bind_layout 0 l0))
    /\ m !! "section" = Some (Some (bind_layout 0 l0)).
Proof.
  intros Hno.
  destruct (analyze_layouts_spec {| slide_layouts := [l0]; slides := old |})
    as (m & Hrun & Ht & Hc & Hs & _).
  exists m. split; [exact Hrun|].
  unfold resolved_section, resolved_content, resolved_title, first_matching,
    first_match, Py.enumerate in *.
  simpl slide_layouts in *. cbn [Py.enumerate_from find fst snd] in *.
  rewrite Hno in Hc.
  destruct (name_matches (accepted "title") (layout_name l0));
    destruct (name_matches (accepted "section") (layout_name l0));
    simpl in *; auto.
Qed.

Lemma single_layout_content_unbound_witness :
  exists m,
    analyze_layouts (template ["Title Slide"]) = Ok m
    /\ m !! "content" = Some None
    /\ m !! "title" = Some (Some (bind_layout 0 (named "Title Slide")))
    /\ m !! "section" = Some (Some (bind_layout 0 (named "Title Slide"))).
Proof. apply (single_layout_content_unbound (named "Title Slide") []). reflexivity. Defined.

End Resolution.

(** ** pptx_creator.py: filling one slide *)

Section SlideBuilders.
Import Pptx Json TemplateManager PPTXCreator LayoutSpec DeckSpec.

Lemma set_title_ok ph items sl :
  text_ok "title" items = true ->
  exists sl', set_title ph items sl = Ok sl'
    /\ slide_layout sl' = slide_layout sl /\ notes_text sl' = notes_text sl.
Proof.
  unfold text_ok, set_title. intros H.
  destruct ph as [i|]; [|eauto].
  destruct (lookup "title" items) as [v|]; [|eauto].
  destruct v; try discriminate. simpl. eauto.
Qed.

Lemma set_subtitle_ok ph items sl :
  optional_text_ok "subtitle" items = true ->
  exists sl', set_subtitle ph items sl = Ok sl'
    /\ slide_layout sl' = slide_layout sl /\ notes_text sl' = notes_text sl.
Proof.
  unfold optional_text_ok, set_subtitle. intros H.
  destruct ph as [i|]; [|eauto].
  destruct (lookup "subtitle" items) as [v|]; [|eauto].
  destruct (truthy v); [|eauto].
  destruct v; try discriminate. simpl. eauto.
Qed.

Lemma write_bullets_ok bullets start frame :
  forallb is_str bullets = true ->
  exists frame', for_each write_bullet (Py.enumerate_from start bullets) frame = Ok frame'.
Proof.
  revert start frame. induction bullets as [|b bullets IH]; intros start frame; simpl.
  - eauto.
  - intros [Hb Hrest]%andb_true_iff. destruct b; try discriminate.
    unfold write_bullet at 1. simpl.
    destruct (start =? 0)%nat; simpl; apply IH, Hrest.
Qed.

Lemma set_bullets_ok ph items sl :
  bullets_ok items = true ->
  exists sl', set_bullets ph items sl = Ok sl'
    /\ slide_layout sl' = slide_layout sl /\ notes_text sl' = notes_text sl.
Proof.
  unfold bullets_ok, set_bullets. intros H.
  destruct ph as [i|]; [|eauto].
  destruct (lookup "bullets" items) as [v|]; [|eauto].
  destruct (truthy v); [|eauto]. simpl in H.
  destruct (iter v) as [bullets|e]; [|discriminate]. simpl.
  destruct (write_bullets_ok bullets 0 [{| p_text := ""; p_level := 0 |}] H)
    as [frame' Hframe].
  unfold Py.enumerate. rewrite Hframe. simpl. eauto.
Qed.

(** What [add_notes] does, case by case. *)
Lemma add_notes_spec items sl :
  add_notes items sl =
  match lookup "notes" items with
  | Some (JStr notes) =>
      if Py.truthy notes then Ok (with_notes sl (Some (Utils.format_slide_notes notes)))
      else Ok sl
  | Some v => if truthy v then Raise AttributeError else Ok sl
  | None => Ok sl
  end.
Proof.
  unfold add_notes.
  destruct (lookup "notes" items) as [v|]; [|reflexivity].
  destruct v as [|b|n|s|l|l]; simpl; try reflexivity;
    try (destruct l; reflexivity);
    match goal with
    | |- context [if ?c then _ else _] => destruct c; reflexivity
    end.
Qed.

Lemma add_notes_ok items sl :
  optional_text_ok "notes" items = true ->
  exists sl', add_notes items sl = Ok sl' /\ slide_layout sl' = slide_layout sl.
Proof.
  rewrite add_notes_spec. unfold optional_text_ok.
  destruct (lookup "notes" items) as [v|]; [|eauto].
  destruct v; simpl; intros H;
    repeat match goal with
           | |- context [if ?b then _ else _] => destruct b
           end; try discriminate; eauto.
Qed.

Lemma content_slide_ok sl items :
  content_data_ok items = true ->
  exists sl', _create_content_slide sl items = Ok sl'
              /\ slide_layout sl' = slide_layout sl.
Proof.
  unfold content_data_ok. intros [[Ht Hb]%andb_true_iff Hn]%andb_true_iff.
  unfold _create_content_slide.
  destruct (set_title_ok (fst (scan_content_slide (shapes sl))) items sl Ht)
    as (sl1 & -> & Hl1 & _). simpl.
  destruct (set_bullets_ok (snd (scan_content_slide (shapes sl))) items sl1 Hb)
    as (sl2 & -> & Hl2 & _). simpl.
  destruct (add_notes_ok items sl2 Hn) as (sl3 & -> & Hl3).
  exists sl3. split; [reflexivity|congruence].
Qed.

Lemma title_slide_ok sl items :
  slide_data_ok items = true ->
  exists sl', _create_title_slide sl items = Ok sl'
              /\ slide_layout sl' = slide_layout sl.
Proof.
  unfold slide_data_ok, content_data_ok.
  intros [[[Ht _]%andb_true_iff Hn]%andb_true_iff Hs]%andb_true_iff.
  unfold _create_title_slide.
  destruct (set_title_ok (fst (scan_title_slide (shapes sl))) items sl Ht)
    as (sl1 & -> & Hl1 & _). simpl.
  destruct (set_subtitle_ok (snd (scan_title_slide (shapes sl))) items sl1 Hs)
    as (sl2 & -> & Hl2 & _). simpl.
  destruct (add_notes_ok items sl2 Hn) as (sl3 & -> & Hl3).
  exists sl3. split; [reflexivity|congruence].
Qed.

Lemma section_slide_ok sl items :
  slide_data_ok items = true ->
  exists sl', _create_section_slide sl items = Ok sl'
              /\ slide_layout sl' = slide_layout sl.
Proof.
  unfold slide_data_ok, content_data_ok.
  intros [[[Ht _]%andb_true_iff Hn]%andb_true_iff _]%andb_true_iff.
  unfold _create_section_slide.
  destruct (set_title_ok (scan_section_slide (shapes sl)) items sl Ht)
    as (sl1 & -> & Hl1 & _). simpl.
  destruct (add_notes_ok items sl1 Hn) as (sl2 & -> & Hl2).
  exists sl2. split; [reflexivity|congruence].
Qed.

(** C9 (as amended). On a content slide whose notes are a truthy string
    (and whose title and bullets can be written), the notes frame is
    created and its text is the input with each line trimmed, blank lines
    removed, joined with line breaks; this also holds when that text is
    empty. *)
Theorem notes_written_when_truthy (sl : Slide) (items : list (string * value))
    (notes : string) :
  lookup "notes" items = Some (JStr notes) ->
  Py.truthy notes = true ->
  text_ok "title" items = true ->
  bullets_ok items = true ->
  exists sl',
    _create_content_slide sl items = Ok sl'
    /\ notes_text sl' = Some (trim_lines notes).
Proof.
  intros Hnotes Htruthy Ht Hb. unfold _create_content_slide.
  destruct (set_title_ok (fst (scan_content_slide (shapes sl))) items sl Ht)
    as (sl1 & -> & _). simpl.
  destruct (set_bullets_ok (snd (scan_content_slide (shapes sl))) items sl1 Hb)
    as (sl2 & -> & _). simpl.
  rewrite add_notes_spec, Hnotes, Htruthy.
  eexists. split; [reflexivity|]. simpl.
  rewrite format_slide_notes_trim_lines. reflexivity.
Qed.

Lemma notes_written_when_truthy_witness :
  exists sl',
    _create_content_slide (new_slide 1 body_layout) notes_entry = Ok sl'
    /\ notes_text sl' = Some ("first" +:+ String Py.newline "second").
Proof.
  apply (notes_written_when_truthy (new_slide 1 body_layout) notes_entry
           (" first " +:+ String Py.newline (String Py.newline " second")));
    reflexivity.
Defined.

(** Without truthy notes the slide keeps the notes it had: none for a new
    slide. *)
Lemma notes_untouched_when_falsy (sl : Slide) (items : list (string * value)) :
  match lookup "notes" items with
  | Some v => truthy v = false
  | None => True
  end ->
  add_notes items sl = Ok sl.
Proof.
  unfold add_notes. destruct (lookup "notes" items) as [v|]; [|reflexivity].
  intros ->. reflexivity.
Qed.

(** C9 (as stated) fails: notes made of blanks are truthy, their formatted
    text is empty, and the notes frame is created all the same, with the
    empty text. *)
Lemma blank_notes_create_frame :
  Utils.format_slide_notes "   " = ""
  /\ notes_text (new_slide 1 body_layout) = None
  /\ match _create_content_slide (new_slide 1 body_layout) blank_notes_entry with
     | Ok sl' => notes_text sl' = Some ""
     | Raise _ => False
     end.
Proof. repeat split. Qed.

End SlideBuilders.

(** ** pptx_creator.py: choosing the layout of a slide *)

Section LayoutChoice.
Import Pptx Json TemplateManager PPTXCreator LayoutSpec DeckSpec.

Lemma get_slide_type items :
  get (JDict items) "slide_type" (JStr "content") = Ok (slide_type_of items).
Proof.
  unfold get, slide_type_of. destruct (lookup "slide_type" items); reflexivity.
Qed.

Lemma select_layout_chosen prs (m : gmap string (option LayoutBinding)) ty :
  select_layout prs (Some m) ty = Ok (chosen_layout prs m ty).
Proof.
  unfold select_layout, chosen_layout, bound_layout.
  destruct (eq_str ty "title"); [reflexivity|].
  destruct (eq_str ty "section").
  - destruct (m !! "section") as [[b|]|]; reflexivity.
  - destruct (m !! "content") as [[b|]|]; reflexivity.
Qed.

Lemma select_layout_other prs layouts ty :
  eq_str ty "title" = false -> eq_str ty "section" = false ->
  select_layout prs layouts ty = select_layout prs layouts (JStr "content").
Proof. unfold select_layout. intros -> ->. reflexivity. Qed.

(** Filling succeeds on well-typed fields, whatever the slide type, and
    keeps the layout the slide was created on. *)
Lemma create_slide_ok layouts prs items idx layout :
  select_layout prs layouts (slide_type_of items) = Ok idx ->
  slide_layouts prs !! idx = Some layout ->
  slide_data_ok items = true ->
  exists sl,
    create_slide layouts prs (JDict items) = Ok (add_slide prs sl)
    /\ slide_layout sl = idx.
Proof.
  intros Hsel Hat Hok. unfold create_slide.
  rewrite get_slide_type. cbn [bind]. rewrite Hsel. cbn [bind].
  unfold layout_at. rewrite Hat. cbn [bind items_of].
  destruct (eq_str (slide_type_of items) "title");
    [|destruct (eq_str (slide_type_of items) "section")].
  - destruct (title_slide_ok (new_slide idx layout) items Hok) as (sl & -> & Hl).
    exists sl. split; [reflexivity|exact Hl].
  - destruct (section_slide_ok (new_slide idx layout) items Hok) as (sl & -> & Hl).
    exists sl. split; [reflexivity|exact Hl].
  - apply andb_true_iff in Hok as [Hok _].
    destruct (content_slide_ok (new_slide idx layout) items Hok) as (sl & -> & Hl).
    exists sl. split; [reflexivity|exact Hl].
Qed.

(** C5 (as amended). The populator chooses the layout of a slide by its
    type: a [title] slide goes on layout index 0 whatever the layout map
    binds to [title]; a [section] slide goes on the layout bound to
    [section], or on index 0 without such a binding; a slide of any other
    type goes on the layout bound to [content], or without such a binding
    on index 1 (index 0 for a single layout). A well-typed entry is created
    on that layout. *)
Theorem populator_layout_choice (prs : Presentation)
    (m : gmap string (option LayoutBinding)) (items : list (string * value)) :
  select_layout prs (Some m) (slide_type_of items)
    = Ok (chosen_layout prs m (slide_type_of items))
  /\ (forall layout,
        slide_layouts prs !! chosen_layout prs m (slide_type_of items) = Some layout ->
        slide_data_ok items = true ->
        exists sl,
          create_slide (Some m) prs (JDict items) = Ok (add_slide prs sl)
          /\ slide_layout sl = chosen_layout prs m (slide_type_of items)).
Proof.
  split; [apply select_layout_chosen|].
  intros layout Hat Hok.
  apply (create_slide_ok (Some m) prs items _ layout);
    [apply select_layout_chosen|exact Hat|exact Hok].
Qed.

Lemma populator_layout_choice_witness :
  exists sl,
    create_slide (Some initial_layouts) deck_template (JDict chart_entry)
      = Ok (add_slide deck_template sl)
    /\ slide_layout sl = 1.
Proof.
  apply (proj2 (populator_layout_choice deck_template initial_layouts
                  chart_entry) body_layout); reflexivity.
Defined.

(** When no layout name matches [section], the layout map binds [section]
    to what it binds to [title]. *)
Lemma section_aliases_title (prs : Presentation) :
  first_matching "section" (slide_layouts prs) = None ->
  exists m, analyze_layouts prs = Ok m /\ m !! "section" = m !! "title".
Proof.
  intros Hnone.
  destruct (analyze_layouts_spec prs) as (m & Hrun & Ht & _ & Hs & _).
  exists m. split; [exact Hrun|].
  rewrite Hs, Ht. unfold resolved_section. rewrite Hnone. reflexivity.
Qed.

(** C5 (as stated) fails: in a template whose layouts are "Blank" and
    "Title Slide" the layout map binds [title] to index 1, and the title
    slide is created on index 0. *)
Lemma title_slide_ignores_binding :
  match analyze_layouts title_second_template with
  | Ok m =>
      m !! "title" = Some (Some (bind_layout 1 (named "Title Slide")))
      /\ create_slide (Some m) title_second_template (JDict title_entry)
         = Ok (add_slide title_second_template (new_slide 0 (named "Blank")))
  | Raise _ => False
  end.
Proof. vm_compute. split; reflexivity. Qed.

Lemma lookup_skip key k v items :
  String.eqb k key = false -> lookup key ((k, v) :: items) = lookup key items.
Proof. simpl. intros ->. reflexivity. Qed.

Lemma content_slide_ignores_type sl v items :
  _create_content_slide sl (("slide_type", v) :: items) = _create_content_slide sl items.
Proof.
  unfold _create_content_slide, set_title, set_bullets, add_notes.
  rewrite !lookup_skip by reflexivity. reflexivity.
Qed.

Lemma unknown_slide_type_tests items :
  unknown_slide_type items = true ->
  eq_str (slide_type_of items) "title" = false
  /\ eq_str (slide_type_of items) "section" = false.
Proof.
  unfold unknown_slide_type, slide_type_of.
  destruct (lookup "slide_type" items) as [v|]; [|split; reflexivity].
  intros [[H1 H2]%andb_true_iff _]%andb_true_iff.
  split; apply negb_true_iff; assumption.
Qed.

(** C8 (as amended). An entry whose [slide_type] is missing or none of
    [title], [section], [content] is never rejected for it: it is processed
    exactly as the same entry with [slide_type] set to [content]; it is
    created on the layout chosen for content slides and filled by the
    content-slide routine, and this succeeds as soon as that layout exists
    and the text fields of the entry can be written. *)
Theorem unknown_slide_type_is_content
    (layouts : option (gmap string (option LayoutBinding)))
    (prs : Presentation) (items : list (string * value)) :
  unknown_slide_type items = true ->
  create_slide layouts prs (JDict items)
    = create_slide layouts prs (JDict (("slide_type", JStr "content") :: items))
  /\ (forall idx layout,
        select_layout prs layouts (JStr "content") = Ok idx ->
        slide_layouts prs !! idx = Some layout ->
        content_data_ok items = true ->
        exists sl,
          _create_content_slide (new_slide idx layout) items = Ok sl
          /\ create_slide layouts prs (JDict items) = Ok (add_slide prs sl)).
Proof.
  intros Hunknown.
  destruct (unknown_slide_type_tests items Hunknown) as [Htitle Hsection].
  assert (create_slide layouts prs (JDict items) =
          let* layout_idx := select_layout prs layouts (JStr "content") in
          let* layout := layout_at prs layout_idx in
          let* sl := _create_content_slide (new_slide layout_idx layout) items in
          Ok (add_slide prs sl)) as Hshape.
  { unfold create_slide. rewrite get_slide_type. cbn [bind].
    rewrite (select_layout_other prs layouts _ Htitle Hsection).
    rewrite Htitle, Hsection. reflexivity. }
  split.
  - rewrite Hshape. unfold create_slide. cbn [get lookup String.eqb Ascii.eqb
      Bool.eqb bind eq_str items_of].
    simpl (lookup "slide_type" _).
    destruct (select_layout prs layouts (JStr "content")) as [idx|e]; [|reflexivity].
    cbn [bind]. destruct (layout_at prs idx) as [layout|e]; [|reflexivity].
    cbn [bind]. simpl (eq_str _ _). cbn iota.
    rewrite content_slide_ignores_type. reflexivity.
  - intros idx layout Hsel Hat Hok.
    destruct (content_slide_ok (new_slide idx layout) items Hok) as (sl & Hsl & _).
    exists sl. split; [exact Hsl|].
    rewrite Hshape, Hsel. cbn [bind]. unfold layout_at. rewrite Hat. cbn [bind].
    rewrite Hsl. reflexivity.
Qed.

Lemma unknown_slide_type_is_content_witness :
  unknown_slide_type chart_entry = true
  /\ create_slide (Some initial_layouts) deck_template (JDict chart_entry)
     = create_slide (Some initial_layouts) deck_template
         (JDict (("slide_type", JStr "content") :: chart_entry))
  /\ is_ok (create_slide (Some initial_layouts) deck_template (JDict chart_entry)) = true.
Proof.
  split; [reflexivity|].
  pose proof (unknown_slide_type_is_content (Some initial_layouts) deck_template
                chart_entry eq_refl) as [Hsame Hruns].
  split; [exact Hsame|].
  destruct (Hruns 1 body_layout eq_refl eq_refl eq_refl) as (sl & _ & ->).
  reflexivity.
Defined.

(** C8 (as stated) fails: an entry of unknown [slide_type] whose notes are
    a number takes the content path and raises there, and the run fails. *)
Lemma unknown_slide_type_can_fail :
  unknown_slide_type numeric_notes_entry = true
  /\ match analyze_layouts deck_template with
     | Ok m => create_slide (Some m) deck_template (JDict numeric_notes_entry)
               = Raise AttributeError
     | Raise _ => False
     end
  /\ snd (WordToPPT.create_presentation deck_template outline_numeric_notes
            "out.pptx" (Some "template.pptx") files)
     = Raise (RuntimeError AttributeError).
Proof. vm_compute. repeat split. Qed.

End LayoutChoice.

(** ** pptx_creator.py and wordtoppt.py: the run and the output file *)

Section Runs.
Import Pptx Json TemplateManager PPTXCreator LayoutSpec DeckSpec.

Variable default_presentation : Presentation.

Lemma create_slide_appends layouts prs slide_data prs' :
  create_slide layouts prs slide_data = Ok prs' ->
  exists sl, prs' = add_slide prs sl.
Proof.
  unfold create_slide.
  destruct (get slide_data "slide_type" (JStr "content")) as [ty|]; [|discriminate].
  cbn [bind].
  destruct (select_layout prs layouts ty) as [idx|]; [|discriminate]. cbn [bind].
  destruct (layout_at prs idx) as [layout|]; [|discriminate]. cbn [bind].
  match goal with
  | |- (let* sl := ?filled in _) = _ -> _ => destruct filled as [sl|]
  end; [|discriminate].
  cbn [bind]. intros [= <-]. eauto.
Qed.

(** The loop keeps the layouts and appends one slide per entry. *)
Lemma populate_loop_appends layouts slides_data prs prs' :
  for_each (create_slide layouts) slides_data prs = Ok prs' ->
  slide_layouts prs' = slide_layouts prs
  /\ exists new, slides prs' = slides prs ++ new /\ length new = length slides_data.
Proof.
  revert prs. induction slides_data as [|d slides_data IH]; intros prs; simpl.
  - intros [= <-]. split; [reflexivity|]. exists []. rewrite app_nil_r. auto.
  - destruct (create_slide layouts prs d) as [prs1|] eqn:Hd; [|discriminate].
    cbn [bind]. intros Hrest.
    destruct (create_slide_appends _ _ _ _ Hd) as [sl ->].
    destruct (IH _ Hrest) as (Hl & new & Hnew & Hlen).
    split; [exact Hl|]. exists (sl :: new). simpl in Hnew.
    rewrite Hnew, <- app_assoc. simpl. auto.
Qed.

Lemma populate_appends raw layouts prs prs' :
  populate raw layouts prs = Ok prs' ->
  slide_layouts prs' = slide_layouts prs
  /\ exists new slides_data,
       slides prs' = slides prs ++ new
       /\ outline_slides raw = Ok slides_data
       /\ length new = length slides_data.
Proof.
  unfold populate, outline_slides.
  destruct (get raw "slides" (JList [])) as [v|]; [|discriminate]. cbn [bind].
  destruct (iter v) as [slides_data|]; [|discriminate]. cbn [bind].
  intros H. destruct (populate_loop_appends _ _ _ _ H) as (Hl & new & Hnew & Hlen).
  eauto 7.
Qed.

Lemma analyze_template_raise (fs : gmap string File) t e :
  analyze_template fs t = Raise e -> exists cause, e = RuntimeError cause.
Proof.
  unfold analyze_template.
  destruct (open_presentation fs t) as [prs|e']; [|intros [= <-]; eauto].
  destruct (analyze_layouts_spec prs) as (m & -> & _). discriminate.
Qed.

Lemma populate_not_an_outline raw layouts prs :
  not_an_outline raw = true -> exists e, populate raw layouts prs = Raise e.
Proof.
  unfold not_an_outline, populate.
  destruct raw as [|b|n|s|l|items]; simpl; eauto.
  destruct (lookup "slides" items) as [[|b|n|s|l|items']|]; simpl; eauto; discriminate.
Qed.

Lemma populate_without_slides items layouts prs :
  lookup "slides" items = None -> populate (JDict items) layouts prs = Ok prs.
Proof. unfold populate. simpl. intros ->. reflexivity. Qed.

(** How a call of [PPTXCreator.create_presentation] leaves the files. *)
Lemma creator_output template_path output_path raw layouts (fs : gmap string File) :
  match create_presentation default_presentation template_path output_path
          raw layouts fs with
  | (fs', Raise e) =>
      (exists cause, e = RuntimeError cause)
      /\ (fs' = fs
          \/ exists t f, path_given template_path = Some t
                         /\ fs !! t = Some f /\ fs' = <[output_path := f]> fs)
  | (fs', Ok _) =>
      exists prs0 prs',
        match path_given template_path with
        | Some t => fs !! t = Some (PptxFile prs0)
        | None => prs0 = default_presentation
        end
        /\ populate raw layouts prs0 = Ok prs'
        /\ fs' = <[output_path := PptxFile prs']> fs
  end.
Proof.
  unfold create_presentation, copy2, open_presentation, save.
  destruct (path_given template_path) as [t|].
  - destruct (fs !! t) as [f|] eqn:Hf; [|split; [eauto|left; reflexivity]].
    destruct (String.eqb t output_path); [split; [eauto|left; reflexivity]|].
    rewrite lookup_insert_eq.
    destruct f as [prs0|bytes]; cbn [bind].
    + destruct (populate raw layouts prs0) as [prs'|e] eqn:Hp.
      * exists prs0, prs'. rewrite insert_insert_eq. auto.
      * split; [eauto|]. right. exists t, (PptxFile prs0). auto.
    + split; [eauto|]. right. exists t, (OtherFile bytes). auto.
  - cbn [bind]. destruct (populate raw layouts default_presentation) as [prs'|e] eqn:Hp.
    + exists default_presentation, prs'. auto.
    + split; [eauto|]. left. reflexivity.
Qed.

(** C3 (as amended). A raw outline that is no mapping, or whose [slides]
    is null, a number or a boolean, makes [create_presentation] fail with a
    [RuntimeError]. A mapping without [slides] is not rejected: it counts as
    an outline with no slides, the run succeeds and the presentation it
    started from is saved at the output path without a new slide. *)
Theorem outline_shape_handling template_path output_path raw layouts
    (fs : gmap string File) :
  (not_an_outline raw = true ->
   exists e, snd (create_presentation default_presentation template_path
                    output_path raw layouts fs) = Raise (RuntimeError e))
  /\ (forall items prs0,
        raw = JDict items ->
        lookup "slides" items = None ->
        starts_from default_presentation template_path output_path fs prs0 ->
        create_presentation default_presentation template_path output_path
          raw layouts fs
        = (<[output_path := PptxFile prs0]> fs, Ok tt)).
Proof.
  split.
  - intros Hraw. unfold create_presentation.
    destruct (match path_given template_path with
              | Some t => _
              | None => _
              end) as [fs1 [prs|e]]; cbn [bind snd].
    + destruct (populate_not_an_outline raw layouts prs Hraw) as [e ->]. eauto.
    + eauto.
  - intros items prs0 -> Hslides Hstart.
    unfold starts_from in Hstart.
    unfold create_presentation, copy2, open_presentation, save.
    destruct (path_given template_path) as [t|].
    + destruct Hstart as [-> ->]. rewrite lookup_insert_eq. cbn [bind].
      rewrite (populate_without_slides items layouts prs0 Hslides).
      rewrite insert_insert_eq. reflexivity.
    + subst prs0. cbn [bind].
      rewrite (populate_without_slides items layouts _ Hslides). reflexivity.
Qed.

(** C4 (as amended). Whatever the stage that fails, a failed run raises a
    [RuntimeError] and never saves the presentation: the output path then
    holds what it held before, or an unchanged copy of the template file,
    made before the first slide is created. A successful run holds at the
    output path the presentation it started from with one new slide per
    entry of the outline appended, written by the one save after the last
    slide. *)
Theorem output_after_run content output_file template_file (fs : gmap string File) :
  match WordToPPT.create_presentation default_presentation content output_file
          template_file fs with
  | (fs', Raise e) =>
      (exists cause, e = RuntimeError cause)
      /\ (fs' = fs
          \/ exists t f, path_given template_file = Some t
                         /\ fs !! t = Some f /\ fs' = <[output_file := f]> fs)
  | (fs', Ok _) =>
      exists prs0 prs' new slides_data,
        match path_given template_file with
        | Some t => fs !! t = Some (PptxFile prs0)
        | None => prs0 = default_presentation
        end
        /\ slide_layouts prs' = slide_layouts prs0
        /\ slides prs' = slides prs0 ++ new
        /\ outline_slides content = Ok slides_data
        /\ length new = length slides_data
        /\ fs' = <[output_file := PptxFile prs']> fs
  end.
Proof.
  unfold WordToPPT.create_presentation.
  destruct (match path_given template_file with
            | Some t => _
            | None => _
            end) as [layouts|e] eqn:Hlayouts.
  - pose proof (creator_output template_file output_file content layouts fs) as H.
    destruct (create_presentation default_presentation template_file output_file
                content layouts fs) as [fs' [[]|e]]; [|exact H].
    destruct H as (prs0 & prs' & Hstart & Hpop & Hfs).
    destruct (populate_appends _ _ _ _ Hpop)
      as (Hl & new & slides_data & Hnew & Hd & Hlen).
    exists prs0, prs', new, slides_data. auto 7.
  - split; [|left; reflexivity].
    destruct (path_given template_file) as [t|]; [|discriminate].
    destruct (analyze_template fs t) as [m|e'] eqn:Ha; [discriminate|].
    injection Hlayouts as <-. apply (analyze_template_raise fs t e' Ha).
Qed.

End Runs.

Section RunExamples.
Import Pptx Json TemplateManager PPTXCreator LayoutSpec DeckSpec.

Lemma outline_shape_handling_witness :
  (exists e, snd (create_presentation deck_template (Some "template.pptx") "out.pptx"
                    (JList []) None files) = Raise (RuntimeError e))
  /\ create_presentation deck_template (Some "template.pptx") "out.pptx"
       outline_without_slides None files
     = (<["out.pptx" := PptxFile deck_template]> files, Ok tt).
Proof.
  split.
  - apply (proj1 (outline_shape_handling deck_template (Some "template.pptx")
                    "out.pptx" (JList []) None files)).
    reflexivity.
  - apply (proj2 (outline_shape_handling deck_template (Some "template.pptx")
                    "out.pptx" outline_without_slides None files)
             [("presentation_title", JStr "Deck")] deck_template).
    + reflexivity.
    + reflexivity.
    + split; reflexivity.
Defined.

(** C3 (as stated) fails: an outline that is a mapping without [slides] is
    accepted; the run succeeds and writes a deck at the output path. *)
Lemma outline_without_slides_accepted :
  lookup "slides" (items_of outline_without_slides) = None
  /\ snd (WordToPPT.create_presentation deck_template outline_without_slides
            "out.pptx" (Some "template.pptx") files) = Ok tt
  /\ fst (WordToPPT.create_presentation deck_template outline_without_slides
            "out.pptx" (Some "template.pptx") files) !! "out.pptx"
     = Some (PptxFile deck_template).
Proof. vm_compute. repeat split. Qed.

(** C4 (as stated) fails: the second entry of the outline is no mapping, the
    run fails while slides are created, and the output path, empty before the
    run, holds a file after it. *)
Lemma failed_run_leaves_output_file :
  files !! "out.pptx" = None
  /\ snd (WordToPPT.create_presentation deck_template outline_bad_entry
            "out.pptx" (Some "template.pptx") files)
     = Raise (RuntimeError AttributeError)
  /\ fst (WordToPPT.create_presentation deck_template outline_bad_entry
            "out.pptx" (Some "template.pptx") files) !! "out.pptx"
     = Some (PptxFile deck_template).
Proof. vm_compute. repeat split. Qed.

End RunExamples.

(** ** Scenarios *)

Section Scenarios.
Import DocxParser DocSpec Pptx Json TemplateManager PPTXCreator LayoutSpec DeckSpec.

(** Layouts "Title Slide" and "Title and Content": [title] and [section] on
    index 0, [content] on index 1, nothing for [picture] and [blank]. *)
Example scenario_two_layouts :
  match analyze_layouts (template ["Title Slide"; "Title and Content"]) with
  | Ok m =>
      m !! "title" = Some (Some (bind_layout 0 (named "Title Slide")))
      /\ m !! "content" = Some (Some (bind_layout 1 (named "Title and Content")))
      /\ m !! "section" = Some (Some (bind_layout 0 (named "Title Slide")))
      /\ m !! "picture" = Some None
      /\ m !! "blank" = Some None
  | Raise _ => False
  end.
Proof. vm_compute. repeat split. Qed.

(** Bullets "A", "B", "C" on a layout whose content placeholder has kind 7:
    three paragraphs, in order, all at level 0. *)
Example scenario_three_bullets :
  match _create_content_slide (new_slide 1 body_layout) notes_entry with
  | Ok sl =>
      text_frame <$> shapes sl !! 1%nat
      = Some [ {| p_text := "A"; p_level := 0 |};
               {| p_text := "B"; p_level := 0 |};
               {| p_text := "C"; p_level := 0 |} ]
  | Raise _ => False
  end.
Proof. vm_compute. reflexivity. Qed.

(** A document with a "Heading 1" among its first three paragraphs: that
    heading gives the title, and the two sections come out in order. *)
Example scenario_document :
  extract_content (Ok doc_two_sections) =
  Ok {| title := "Intro";
        headings := [ {| level := 1; heading_text := "Intro" |};
                      {| level := 2; heading_text := "Background" |} ];
        paragraphs := ["preamble"; "a"; "b"];
        sections :=
          [ {| heading := {| level := 1; heading_text := "Intro" |};
               content := ["a"] |};
            {| heading := {| level := 2; heading_text := "Background" |};
               content := ["b"] |} ] |}.
Proof. reflexivity. Qed.

(** A whole run on a two-entry outline: the deck at the output path has the
    two slides, on layouts 0 and 1. *)
Example scenario_run :
  match WordToPPT.create_presentation deck_template
          (JDict [("slides", JList [JDict title_entry; JDict notes_entry])])
          "out.pptx" (Some "template.pptx") files with
  | (fs', Ok _) =>
      match fs' !! "out.pptx" with
      | Some (PptxFile prs) => map slide_layout (slides prs) = [0; 1]
      | _ => False
      end
  | (_, Raise _) => False
  end.
Proof. vm_compute. reflexivity. Qed.

End Scenarios.

(** * Further properties *)

(** ** utils.py: the shape of formatted notes *)

Section FormattedNotes.

Lemma join_split sep s : Py.join (String sep "") (Py.split sep s) = s.
Proof.
  induction s as [|c s IH]; [reflexivity|]. simpl.
  destruct (Ascii.eqb c sep) eqn:Hc.
  - apply Ascii.eqb_eq in Hc. subst c.
    pose proof (split_not_nil sep s) as Hne.
    destruct (Py.split sep s) as [|h t] eqn:Hs; [contradiction|].
    change (Py.join (String sep "") ("" :: h :: t))
      with (String sep (Py.join (String sep "") (h :: t))).
    rewrite IH. reflexivity.
  - pose proof (split_not_nil sep s) as Hne.
    destruct (Py.split sep s) as [|h t] eqn:Hs; [contradiction|].
    rewrite <- IH. destruct t; reflexivity.
Qed.

Lemma rstrip_fixed_of_strip s : Py.strip s = s -> Py.rstrip s = s.
Proof. intros H. rewrite <- H. unfold Py.strip. apply rstrip_idem. Qed.

Lemma starts_clean_of_strip s : Py.strip s = s -> starts_clean s.
Proof.
  intros H. rewrite <- H. apply rstrip_starts_clean, lstrip_starts_clean.
Qed.

Lemma rstrip_app s t :
  Py.rstrip t <> "" -> Py.rstrip (s +:+ t) = s +:+ Py.rstrip t.
Proof.
  intros Ht. induction s as [|c s IH]; [reflexivity|].
  change (String c s +:+ t) with (String c (s +:+ t)). simpl Py.rstrip.
  rewrite IH. change (String c s +:+ Py.rstrip t) with (String c (s +:+ Py.rstrip t)).
  destruct (s +:+ Py.rstrip t) eqn:Happ; [|reflexivity].
  destruct s; simpl in Happ; [contradiction|discriminate].
Qed.

Lemma join_nonempty sep x l : Py.truthy x = true -> Py.join sep (x :: l) <> "".
Proof.
  destruct x as [|c x]; [discriminate|]. intros _.
  destruct l; simpl; discriminate.
Qed.

Lemma join_cons sep x y l :
  Py.join sep (x :: y :: l) = x +:+ sep +:+ Py.join sep (y :: l).
Proof. reflexivity. Qed.

Lemma rstrip_join l :
  l <> [] -> Forall clean_line l ->
  Py.rstrip (Py.join (String Py.newline "") l) = Py.join (String Py.newline "") l.
Proof.
  induction l as [|x l IH]; [congruence|]. intros _ Hall.
  inversion Hall as [|? ? [Hx Hsx] Hl]; subst.
  destruct l as [|y l].
  - simpl. apply rstrip_fixed_of_strip, Hsx.
  - rewrite join_cons.
    assert (Py.rstrip (Py.join (String Py.newline "") (y :: l))
            = Py.join (String Py.newline "") (y :: l)) as Hrest.
    { apply IH; [discriminate|exact Hl]. }
    assert (Py.join (String Py.newline "") (y :: l) <> "") as Hne.
    { inversion Hl as [|? ? [Hy _] _]; subst. apply join_nonempty, Hy. }
    rewrite rstrip_app.
    + rewrite rstrip_app; [rewrite Hrest; reflexivity|rewrite Hrest; exact Hne].
    + rewrite rstrip_app; [|rewrite Hrest; exact Hne]. discriminate.
Qed.

Lemma starts_clean_join l :
  Forall clean_line l -> starts_clean (Py.join (String Py.newline "") l).
Proof.
  intros Hall. destruct Hall as [|x l [Hx Hsx] Hl]; [exact I|].
  pose proof (starts_clean_of_strip x Hsx) as Hc.
  destruct x as [|c x]; [discriminate|].
  destruct l; exact Hc.
Qed.

Lemma kept_lines_clean_line notes : Forall clean_line (kept_lines notes).
Proof.
  eapply Forall_impl; [apply kept_lines_clean|].
  intros line (_ & Hs & Ht). split; assumption.
Qed.

Lemma formatted_lines_clean (notes : string) :
  Utils.format_slide_notes notes <> "" ->
  Forall clean_line (Py.split Py.newline (Utils.format_slide_notes notes)).
Proof.
  rewrite format_slide_notes_kept.
  pose proof (kept_lines_clean_line notes) as Hclean.
  pose proof (kept_lines_clean notes) as Hfree.
  destruct (kept_lines notes) as [|x l] eqn:Hk.
  - intros H. contradiction H. reflexivity.
  - intros _. rewrite split_join; [exact Hclean|discriminate|].
    eapply Forall_impl; [exact Hfree|]. simpl. tauto.
Qed.

(** X1. The formatted notes have no white space at either end, and each of
    their lines is non-empty and has no white space at either end: no blank
    line, no indentation, no trailing blanks. *)
Theorem formatted_notes_are_clean (notes : string) :
  Py.strip (Utils.format_slide_notes notes) = Utils.format_slide_notes notes
  /\ (Utils.format_slide_notes notes <> "" ->
      Forall clean_line (Py.split Py.newline (Utils.format_slide_notes notes))).
Proof.
  split; [|apply formatted_lines_clean].
  rewrite format_slide_notes_kept.
  pose proof (kept_lines_clean_line notes) as Hclean.
  destruct (kept_lines notes) as [|x l] eqn:Hk; [reflexivity|].
  unfold Py.strip. rewrite lstrip_clean by (apply starts_clean_join, Hclean).
  apply rstrip_join; [discriminate|exact Hclean].
Qed.

Lemma formatted_notes_are_clean_witness :
  Utils.format_slide_notes ("  a " +:+ String Py.newline (String Py.newline " b")) <> ""
  /\ Forall clean_line
       (Py.split Py.newline
          (Utils.format_slide_notes
             ("  a " +:+ String Py.newline (String Py.newline " b")))).
Proof.
  split; [discriminate|].
  apply (proj2 (formatted_notes_are_clean
                  ("  a " +:+ String Py.newline (String Py.newline " b")))).
  discriminate.
Defined.

End FormattedNotes.

Section FormattedNotesMore.

Lemma kept_lines_of_clean notes :
  Forall clean_line (Py.split Py.newline notes) ->
  kept_lines notes = Py.split Py.newline notes.
Proof.
  unfold kept_lines. intros Hall.
  induction Hall as [|line lines [Ht Hs] _ IH]; simpl; [reflexivity|].
  rewrite Hs, Ht. f_equal. exact IH.
Qed.

(** X2. The notes that formatting leaves unchanged are exactly the empty
    text and the texts whose lines are all non-empty and free of white space
    at both ends. *)
Theorem format_slide_notes_fixed_points (notes : string) :
  Utils.format_slide_notes notes = notes
  <-> notes = "" \/ Forall clean_line (Py.split Py.newline notes).
Proof.
  split.
  - intros Hfix. destruct notes as [|c notes]; [left; reflexivity|]. right.
    pose proof (formatted_lines_clean (String c notes)) as Hclean.
    rewrite Hfix in Hclean. apply Hclean. discriminate.
  - intros [->|Hall]; [reflexivity|].
    rewrite format_slide_notes_kept, (kept_lines_of_clean notes Hall).
    apply join_split.
Qed.

Lemma format_slide_notes_fixed_points_witness :
  Utils.format_slide_notes ("a b" +:+ String Py.newline "c")
  = "a b" +:+ String Py.newline "c".
Proof.
  apply (proj2 (format_slide_notes_fixed_points ("a b" +:+ String Py.newline "c"))).
  right. repeat constructor.
Defined.

Lemma lstrip_length s : String.length (Py.lstrip s) <= String.length s.
Proof.
  induction s as [|c s IH]; simpl; [lia|].
  destruct (Py.is_space c); simpl; lia.
Qed.

Lemma rstrip_length s : String.length (Py.rstrip s) <= String.length s.
Proof.
  induction s as [|c s IH]; simpl; [lia|].
  destruct (Py.rstrip s); [destruct (Py.is_space c)|]; simpl in *; lia.
Qed.

Lemma strip_length s : String.length (Py.strip s) <= String.length s.
Proof.
  unfold Py.strip. pose proof (rstrip_length (Py.lstrip s)).
  pose proof (lstrip_length s). lia.
Qed.

Lemma append_length s t :
  String.length (s +:+ t) = String.length s + String.length t.
Proof. induction s as [|c s IH]; simpl; [reflexivity|]. rewrite IH. reflexivity. Qed.

Lemma join_length_weight sep x l :
  S (String.length (Py.join (String sep "") (x :: l))) = weight (x :: l).
Proof.
  revert x. induction l as [|y l IH]; intros x.
  - simpl. lia.
  - rewrite join_cons, !append_length.
    change (weight (x :: y :: l)) with (S (String.length x) + weight (y :: l)).
    rewrite <- IH. change (String.length (String sep "")) with 1.
    generalize (String.length x), (String.length (Py.join (String sep "") (y :: l))).
    intros a b. lia.
Qed.

Lemma join_length_le sep l : String.length (Py.join (String sep "") l) <= weight l - 1.
Proof.
  destruct l as [|x l]; [simpl; lia|].
  pose proof (join_length_weight sep x l). lia.
Qed.

Lemma kept_weight pieces :
  weight (List.filter Py.truthy (map Py.strip pieces)) <= weight pieces.
Proof.
  induction pieces as [|p pieces IH]; simpl; [lia|].
  pose proof (strip_length p).
  destruct (Py.truthy (Py.strip p)); simpl; lia.
Qed.

Lemma split_weight sep s : weight (Py.split sep s) = S (String.length s).
Proof.
  pose proof (split_not_nil sep s) as Hne.
  destruct (Py.split sep s) as [|x l] eqn:Hs; [contradiction|].
  rewrite <- (join_length_weight sep), <- Hs, join_split. reflexivity.
Qed.

(** X3. Formatting never makes the notes longer. *)
Theorem format_slide_notes_not_longer (notes : string) :
  String.length (Utils.format_slide_notes notes) <= String.length notes.
Proof.
  rewrite format_slide_notes_kept. unfold kept_lines.
  pose proof (join_length_le Py.newline
                (List.filter Py.truthy (map Py.strip (Py.split Py.newline notes)))) as H1.
  pose proof (kept_weight (Py.split Py.newline notes)) as H2.
  pose proof (split_weight Py.newline notes) as H3.
  lia.
Qed.

Lemma lstrip_blank s : Py.lstrip s = "" <-> blank s = true.
Proof.
  induction s as [|c s IH]; simpl; [tauto|].
  destruct (Py.is_space c); simpl; [exact IH|]. split; discriminate.
Qed.

Lemma rstrip_nonempty c s : Py.is_space c = false -> Py.rstrip (String c s) <> "".
Proof.
  intros Hc. simpl. destruct (Py.rstrip s); [rewrite Hc|]; discriminate.
Qed.

Lemma strip_blank s : Py.strip s = "" <-> blank s = true.
Proof.
  rewrite <- lstrip_blank. unfold Py.strip.
  pose proof (lstrip_starts_clean s) as Hc.
  destruct (Py.lstrip s) as [|c r]; [tauto|].
  split; [|discriminate]. intros H. apply rstrip_nonempty in H; [contradiction|exact Hc].
Qed.

Lemma blank_split s : forallb blank (Py.split Py.newline s) = blank s.
Proof.
  induction s as [|c s IH]; [reflexivity|]. simpl.
  destruct (Ascii.eqb c Py.newline) eqn:Hc.
  - apply Ascii.eqb_eq in Hc. subst c. simpl. exact IH.
  - pose proof (split_not_nil Py.newline s) as Hne.
    destruct (Py.split Py.newline s) as [|h t]; [contradiction|].
    simpl in *. rewrite <- IH. rewrite andb_assoc. reflexivity.
Qed.

Lemma kept_lines_nil s : kept_lines s = [] <-> blank s = true.
Proof.
  rewrite <- blank_split. unfold kept_lines.
  induction (Py.split Py.newline s) as [|p ps IH]; simpl; [tauto|].
  destruct (blank p) eqn:Hb.
  - apply strip_blank in Hb. rewrite Hb. simpl. exact IH.
  - destruct (Py.strip p) as [|c r] eqn:Hs.
    + apply strip_blank in Hs. congruence.
    + simpl. split; discriminate.
Qed.

(** X4. The formatted notes are empty exactly when the notes hold nothing
    but white space (line breaks included). *)
Theorem format_slide_notes_empty_iff_blank (notes : string) :
  Utils.format_slide_notes notes = "" <-> blank notes = true.
Proof.
  rewrite <- kept_lines_nil, format_slide_notes_kept.
  pose proof (kept_lines_clean_line notes) as Hclean.
  destruct (kept_lines notes) as [|x l]; [tauto|].
  split; [|discriminate]. intros H.
  inversion Hclean as [|? ? [Hx _] _]; subst.
  apply join_nonempty in H; [contradiction|exact Hx].
Qed.

End FormattedNotesMore.

(** ** docx_parser.py: how the four extractions relate *)

Section Extractions.
Import DocxParser DocSpec.

Lemma flush_headings secs cur c c' :
  map heading (flush secs cur c) = map heading (flush secs cur c').
Proof. destruct cur; simpl; [rewrite !map_app|]; reflexivity. Qed.

Lemma headings_follow_sections doc hs secs cur c :
  hs = map heading (flush secs cur c) ->
  for_each
    (fun headings p =>
       if is_heading p then
         let* lvl := heading_level p in
         Ok (headings ++ [{| level := lvl; heading_text := Py.strip (text p) |}])
       else Ok headings)
    doc hs
  = match for_each sections_step doc (secs, cur, c) with
    | Ok st => Ok (map heading (flush (fst (fst st)) (snd (fst st)) (snd st)))
    | Raise e => Raise e
    end.
Proof.
  revert hs secs cur c. induction doc as [|p doc IH]; intros hs secs cur c Hhs.
  - simpl. rewrite Hhs. reflexivity.
  - simpl. destruct (is_heading p).
    + destruct (heading_level p) as [lvl|e]; simpl; [|reflexivity].
      apply IH. rewrite Hhs. simpl. rewrite map_app. reflexivity.
    + destruct (Py.truthy (Py.strip (text p)) && bool_decide (is_Some cur));
        simpl; apply IH; [|exact Hhs].
      rewrite Hhs. apply flush_headings.
Qed.

Lemma extract_headings_sections (document : option Document) :
  _extract_headings document
  = match _extract_sections document with
    | Ok secs => Ok (map heading secs)
    | Raise e => Raise e
    end.
Proof.
  destruct document as [doc|]; [|reflexivity].
  unfold _extract_headings, _extract_sections.
  rewrite (headings_follow_sections doc [] [] None [] eq_refl).
  destruct (for_each sections_step doc ([], None, [])) as [[[secs cur] c]|e];
    reflexivity.
Qed.

(** X5. The headings list and the sections list never disagree: the
    headings are the headings of the sections, in the same order, and the
    two extractions fail on the same documents with the same exception. *)
Theorem headings_are_section_headings (document : option Document) :
  _extract_headings document
  = match _extract_sections document with
    | Ok secs => Ok (map heading secs)
    | Raise e => Raise e
    end.
Proof. apply extract_headings_sections. Qed.

Lemma paragraphs_loop doc acc :
  fold_left
    (fun paragraphs p =>
       if negb (is_heading p) && Py.truthy (Py.strip (text p))
       then paragraphs ++ [Py.strip (text p)]
       else paragraphs)
    doc acc
  = acc ++ body_content (List.filter (fun p => negb (is_heading p)) doc).
Proof.
  revert acc. induction doc as [|p doc IH]; intros acc; simpl.
  - rewrite app_nil_r. reflexivity.
  - rewrite IH. unfold body_content.
    destruct (is_heading p); simpl; [reflexivity|].
    destruct (Py.truthy (Py.strip (text p))); simpl; [|reflexivity].
    rewrite <- app_assoc. reflexivity.
Qed.

Lemma body_content_app a b : body_content (a ++ b) = body_content a ++ body_content b.
Proof. unfold body_content. rewrite map_app, List.filter_app. reflexivity. Qed.

Lemma filter_no_heading ps :
  no_heading ps = true -> List.filter (fun p => negb (is_heading p)) ps = ps.
Proof.
  induction ps as [|p ps IH]; simpl; [reflexivity|].
  intros [Hp Hps]%andb_true_iff. rewrite Hp, (IH Hps). reflexivity.
Qed.

Lemma body_content_blocks blocks :
  forallb (fun b => is_heading (fst b) && no_heading (snd b)) blocks = true ->
  body_content (List.filter (fun p => negb (is_heading p)) (flatten blocks))
  = concat (map content (map section_of_block blocks)).
Proof.
  induction blocks as [|[h body] blocks IH]; simpl; [reflexivity|].
  intros [[Hh Hbody]%andb_true_iff Hrest]%andb_true_iff. simpl in Hh, Hbody.
  unfold flatten. simpl. rewrite Hh. simpl.
  rewrite List.filter_app, body_content_app, (filter_no_heading body Hbody).
  f_equal. apply IH, Hrest.
Qed.

Lemma levels_parse_of_sections doc :
  is_ok (_extract_sections (Some doc)) = true -> levels_parse doc = true.
Proof.
  intros Hok. unfold levels_parse.
  destruct (forallb (fun p => negb (malformed_heading p)) doc) eqn:Hall; [reflexivity|].
  assert (existsb malformed_heading doc = true) as Hex.
  { clear Hok. induction doc as [|p doc IH]; simpl in *; [discriminate|].
    destruct (malformed_heading p); simpl in *; [reflexivity|apply IH, Hall]. }
  unfold _extract_sections in Hok.
  rewrite (sections_loop_raise doc _ Hex) in Hok. discriminate.
Qed.

(** X6. When the sections can be extracted, the paragraphs list is made of
    the texts that come before the first heading followed by the contents of
    the sections, in order: the sections lose nothing but that preamble. *)
Theorem paragraphs_are_preamble_and_contents (doc : Document) (secs : list DocSection) :
  _extract_sections (Some doc) = Ok secs ->
  _extract_paragraphs (Some doc)
  = body_content (fst (split_blocks doc)) ++ concat (map content secs).
Proof.
  intros Hsecs.
  assert (levels_parse doc = true) as Hlevels.
  { apply levels_parse_of_sections. rewrite Hsecs. reflexivity. }
  rewrite (extract_sections_total doc Hlevels) in Hsecs. injection Hsecs as <-.
  destruct (split_blocks_decomposes doc) as (Heq & Hpre & Hblocks).
  unfold _extract_paragraphs. rewrite paragraphs_loop. simpl.
  rewrite Heq at 1.
  rewrite List.filter_app, body_content_app, (filter_no_heading _ Hpre).
  f_equal. apply body_content_blocks, Hblocks.
Qed.

Lemma paragraphs_are_preamble_and_contents_witness :
  _extract_paragraphs (Some doc_two_sections) = ["preamble"; "a"; "b"].
Proof.
  rewrite (paragraphs_are_preamble_and_contents doc_two_sections
             (map section_of_block (snd (split_blocks doc_two_sections))) eq_refl).
  reflexivity.
Defined.

Lemma firstn_firstn_le {A} (n m : nat) (l : list A) :
  n <= m -> firstn n (firstn m l) = firstn n l.
Proof.
  revert m l. induction n as [|n IH]; intros m l Hle; [reflexivity|].
  destruct m as [|m]; [lia|]. destruct l as [|x l]; [reflexivity|].
  simpl. f_equal. apply IH. lia.
Qed.

(** The title depends on the first five paragraphs only. *)
Theorem title_reads_first_five (doc : Document) :
  _extract_title (Some doc) = _extract_title (Some (firstn 5 doc)).
Proof.
  unfold _extract_title.
  rewrite (firstn_firstn_le 3 5 doc) by lia.
  rewrite (firstn_firstn_le 5 5 doc) by lia.
  destruct doc as [|p doc]; reflexivity.
Qed.

(** X7. The title never carries white space at either end. *)
Theorem title_is_trimmed (document : option Document) :
  Py.strip (_extract_title document) = _extract_title document.
Proof.
  unfold _extract_title.
  destruct document as [[|p doc]|]; try reflexivity.
  repeat match goal with
         | |- context [match ?o with Some _ => _ | None => _ end] =>
             destruct o
         end; try reflexivity; apply strip_idem.
Qed.

Lemma not_levels_parse doc :
  levels_parse doc = false -> existsb malformed_heading doc = true.
Proof.
  unfold levels_parse. induction doc as [|p doc IH]; simpl; [discriminate|].
  destruct (malformed_heading p); simpl; [reflexivity|exact IH].
Qed.

(** X8. The content of a document that opens is extracted exactly when every
    heading level parses; its headings are then the headings of its sections.
    Otherwise the extraction raises [ValueError]. *)
Theorem extract_content_outcome (doc : Document) :
  (levels_parse doc = true ->
   exists secs,
     _extract_sections (Some doc) = Ok secs
     /\ extract_content (Ok doc)
        = Ok {| title := _extract_title (Some doc);
                headings := map heading secs;
                paragraphs := _extract_paragraphs (Some doc);
                sections := secs |})
  /\ (levels_parse doc = false -> extract_content (Ok doc) = Raise ValueError).
Proof.
  split.
  - intros Hlevels. pose proof (extract_sections_total doc Hlevels) as Hsecs.
    eexists. split; [exact Hsecs|].
    unfold extract_content.
    rewrite (extract_headings_sections (Some doc)), Hsecs. reflexivity.
  - intros Hbad. apply not_levels_parse in Hbad.
    unfold extract_content, _extract_headings.
    rewrite (headings_loop_raise doc [] Hbad). reflexivity.
Qed.

Lemma extract_content_outcome_witness :
  is_ok (extract_content (Ok doc_two_sections)) = true
  /\ extract_content (Ok doc_mixed) = Raise ValueError.
Proof.
  split.
  - destruct (proj1 (extract_content_outcome doc_two_sections) eq_refl)
      as (secs & _ & ->). reflexivity.
  - apply (proj2 (extract_content_outcome doc_mixed)). reflexivity.
Defined.

End Extractions.

(** ** docx_parser.py: the level of a heading style *)

Section HeadingLevels.
Import DocxParser DocSpec.












End HeadingLevels.

(** ** template_manager.py: the layout map as a whole *)

Section LayoutMap.
Import Pptx TemplateManager LayoutSpec.

(** A property of the loop state that every round keeps holds at the end. *)
Lemma for_each_invariant {S A} (P : S -> Prop) (body : S -> A -> result S)
    (items : list A) (s s' : S) :
  (forall s0 x s1, body s0 x = Ok s1 -> P s0 -> P s1) ->
  for_each body items s = Ok s' -> P s -> P s'.
Proof.
  intros Hstep. revert s. induction items as [|x items IH]; intros s; simpl.
  - intros [= <-]. trivial.
  - destruct (body s x) as [s1|e] eqn:Hx; [|discriminate]. simpl.
    intros Hrun Hs. apply (IH s1 Hrun). apply (Hstep s x s1 Hx Hs).
Qed.

Lemma match_type_dom i layout (m m' : gmap string (option LayoutBinding)) item :
  match_type i layout m item = Ok m' -> dom m' = dom m.
Proof.
  destruct item as [k names]. unfold match_type, getitem.
  destruct (name_matches names (layout_name layout)); [|intros [= <-]; reflexivity].
  destruct (m !! k) as [[b|]|] eqn:Hk; simpl; try discriminate.
  - intros [= <-]. reflexivity.
  - intros [= <-]. apply dom_insert_lookup_L. rewrite Hk. eauto.
Qed.

Lemma scan_dom items (m m' : gmap string (option LayoutBinding)) :
  for_each match_layout items m = Ok m' -> dom m' = dom m.
Proof.
  intros Hrun.
  apply (for_each_invariant (fun s => dom s = dom m) match_layout items m m');
    [|exact Hrun|reflexivity].
  intros s0 [i layout] s1 Hstep Hs0. rewrite <- Hs0.
  unfold match_layout in Hstep. cbn [fst snd] in Hstep.
  apply (for_each_invariant (fun s => dom s = dom s0) (match_type i layout)
           SLIDE_LAYOUT_TYPES s0 s1); [|exact Hstep|reflexivity].
  intros s2 item s3 Hitem Hs2. rewrite <- Hs2. eapply match_type_dom, Hitem.
Qed.

Lemma analyze_layouts_dom prs (m : gmap string (option LayoutBinding)) :
  analyze_layouts prs = Ok m -> dom m = dom initial_layouts.
Proof.
  unfold analyze_layouts, getitem, layout_at.
  destruct (for_each match_layout (Py.enumerate (slide_layouts prs)) initial_layouts)
    as [m1|e] eqn:Hscan; [|discriminate].
  apply scan_dom in Hscan. rewrite <- Hscan. clear Hscan. cbn [bind].
  repeat match goal with
         | |- context [bool_decide ?P] => destruct (bool_decide P)
         | |- context [(?a <? ?b)%nat] => destruct (a <? b)%nat
         | |- context [@lookup ?K ?V ?M ?L ?k ?m] =>
             let H := fresh "Hl" in
             destruct (@lookup K V M L k m) eqn:H; cbn [bind andb negb]
         | |- Raise _ = Ok _ -> _ => discriminate
         | |- Ok _ = Ok _ -> _ => intros [= <-]
         | _ => progress cbn [bind andb negb]
         end;
    rewrite ?dom_insert_lookup_L; try reflexivity; eauto.
Qed.

(** X10. Analysing a template fails only when the file at the template path
    cannot be opened as a presentation, and then with
    [RuntimeError] caused by the opening; the scan of the layouts itself never
    raises. *)
Theorem analyze_template_outcome (fs : gmap string File) (template_path : string) :
  match fs !! template_path with
  | Some (PptxFile prs) =>
      exists m, analyze_template fs template_path = Ok m
                /\ analyze_layouts prs = Ok m
  | _ => analyze_template fs template_path = Raise (RuntimeError OSError)
  end.
Proof.
  unfold analyze_template, open_presentation.
  destruct (fs !! template_path) as [[prs|bytes]|]; try reflexivity.
  destruct (analyze_layouts_spec prs) as (m & Hrun & _). eauto.
Qed.

(** X11. The layout map always has exactly the five roles as keys, bound or
    not. *)
Theorem layout_map_keys (prs : Presentation) :
  exists m,
    analyze_layouts prs = Ok m
    /\ forall key, is_Some (m !! key)
                   <-> In key ["title"; "section"; "content"; "picture"; "blank"].
Proof.
  destruct (analyze_layouts_spec prs) as (m & Hrun & _).
  exists m. split; [exact Hrun|].
  pose proof (analyze_layouts_dom prs m Hrun) as Hdom.
  intros key. rewrite <- elem_of_dom, Hdom.
  unfold initial_layouts.
  rewrite !dom_insert_L, dom_empty_L, !elem_of_union, !elem_of_singleton, elem_of_empty.
  simpl. intuition congruence.
Qed.

Lemma first_matching_layout key layouts b :
  first_matching key layouts = Some b ->
  exists l, layouts !! index b = Some l
            /\ b = bind_layout (index b) l
            /\ name_matches (accepted key) (layout_name l) = true.
Proof.
  unfold first_matching, Py.enumerate.
  destruct (first_match (accepted key) (Py.enumerate_from 0 layouts))
    as [[i l]|] eqn:Hfirst; [|discriminate].
  intros [= <-]. simpl.
  destruct (first_match_from _ _ _ _ _ Hfirst) as (_ & Hat & Hm & _).
  rewrite Nat.sub_0_r in Hat. eauto.
Qed.

Lemma resolved_title_layout layouts b :
  resolved_title layouts = Some b ->
  exists l, layouts !! index b = Some l /\ b = bind_layout (index b) l.
Proof.
  unfold resolved_title.
  destruct (first_matching "title" layouts) as [b'|] eqn:Hf.
  - intros [= <-]. destruct (first_matching_layout _ _ _ Hf) as (l & ? & ? & _). eauto.
  - destruct layouts as [|l0 ls]; [discriminate|]. intros [= <-]. simpl. eauto.
Qed.

(** X12. Every binding of the layout map points into the template: its index
    is the position of a layout of the template, and its name and placeholder
    list are those of that layout. *)
Theorem bindings_point_into_template (prs : Presentation)
    (m : gmap string (option LayoutBinding)) (key : string) (b : LayoutBinding) :
  analyze_layouts prs = Ok m ->
  m !! key = Some (Some b) ->
  exists l,
    slide_layouts prs !! index b = Some l
    /\ name b = layout_name l
    /\ placeholders b = _analyze_placeholders l.
Proof.
  intros Hrun Hb.
  assert (exists l, slide_layouts prs !! index b = Some l /\ b = bind_layout (index b) l)
    as (l & Hat & Heq).
  { destruct (analyze_layouts_spec prs) as (m' & Hrun' & Ht & Hc & Hs & Hp & Hbl).
    rewrite Hrun in Hrun'. injection Hrun' as <-.
    assert (is_Some (m !! key)) as Hkey by (rewrite Hb; eauto).
    rewrite <- elem_of_dom, (analyze_layouts_dom prs m Hrun) in Hkey.
    unfold initial_layouts in Hkey.
    rewrite !dom_insert_L, dom_empty_L, !elem_of_union, !elem_of_singleton,
      elem_of_empty in Hkey.
    destruct Hkey as [->|[->|[->|[->|[->|[]]]]]].
    - rewrite Ht in Hb. injection Hb as Hb. apply resolved_title_layout, Hb.
    - rewrite Hs in Hb. injection Hb as Hb. unfold resolved_section in Hb.
      destruct (first_matching "section" (slide_layouts prs)) as [b'|] eqn:Hf.
      + injection Hb as <-.
        destruct (first_matching_layout _ _ _ Hf) as (l & ? & ? & _). eauto.
      + apply resolved_title_layout, Hb.
    - rewrite Hc in Hb. injection Hb as Hb. unfold resolved_content in Hb.
      destruct (first_matching "content" (slide_layouts prs)) as [b'|] eqn:Hf.
      + injection Hb as <-.
        destruct (first_matching_layout _ _ _ Hf) as (l & ? & ? & _). eauto.
      + destruct (slide_layouts prs) as [|l0 [|l1 ls]]; try discriminate.
        injection Hb as <-. simpl. eauto.
    - rewrite Hp in Hb. injection Hb as Hb.
      destruct (first_matching_layout _ _ _ Hb) as (l & ? & ? & _). eauto.
    - rewrite Hbl in Hb. injection Hb as Hb.
      destruct (first_matching_layout _ _ _ Hb) as (l & ? & ? & _). eauto. }
  exists l. rewrite Heq at 2 3. simpl. auto.
Qed.

Lemma bindings_point_into_template_witness :
  exists l,
    slide_layouts (template ["Blank"; "Title Slide"]) !! 1%nat = Some l
    /\ "Title Slide" = layout_name l.
Proof.
  destruct (analyze_layouts (template ["Blank"; "Title Slide"])) as [m|e] eqn:Hrun;
    [|discriminate].
  destruct (bindings_point_into_template (template ["Blank"; "Title Slide"]) m
              "title" (bind_layout 1 (named "Title Slide")) Hrun)
    as (l & Hat & Hname & _).
  - injection Hrun as <-. reflexivity.
  - exists l. split; [exact Hat|exact Hname].
Defined.

End LayoutMap.
Section LayoutFallbacks.
Import Pptx TemplateManager LayoutSpec.

Lemma first_match_none names layouts start :
  first_match names (Py.enumerate_from start layouts) = None
  <-> Forall (fun l => name_matches names (layout_name l) = false) layouts.
Proof.
  revert start. induction layouts as [|l layouts IH]; intros start; simpl.
  - split; [constructor|reflexivity].
  - destruct (name_matches names (layout_name l)) eqn:Hm.
    + split; [discriminate|]. intros H. inversion H; congruence.
    + rewrite IH. split; [constructor; assumption|].
      intros H. inversion H; assumption.
Qed.

Lemma first_matching_none key layouts :
  first_matching key layouts = None
  <-> Forall (fun l => name_matches (accepted key) (layout_name l) = false) layouts.
Proof.
  unfold first_matching, Py.enumerate. rewrite <- (first_match_none _ layouts 0).
  destruct (first_match (accepted key) (Py.enumerate_from 0 layouts));
    simpl; split; congruence.
Qed.

(** X13. The roles [picture] and [blank] have no fallback: each is left
    unbound exactly when no layout name of the template matches it. *)
Theorem opportunistic_roles (prs : Presentation) :
  exists m,
    analyze_layouts prs = Ok m
    /\ (m !! "picture" = Some None
        <-> Forall (fun l => name_matches ["Picture with Caption"; "Title and Picture"]
                               (layout_name l) = false) (slide_layouts prs))
    /\ (m !! "blank" = Some None
        <-> Forall (fun l => name_matches ["Blank"] (layout_name l) = false)
              (slide_layouts prs)).
Proof.
  destruct (analyze_layouts_spec prs) as (m & Hrun & _ & _ & _ & Hp & Hb).
  exists m. split; [exact Hrun|].
  rewrite Hp, Hb.
  change ["Picture with Caption"; "Title and Picture"] with (accepted "picture").
  change ["Blank"] with (accepted "blank").
  rewrite <- !first_matching_none.
  split; split; congruence.
Qed.

(** X14. With at least one layout the roles [title] and [section] are bound;
    with at least two layouts [content] is bound as well. *)
Theorem essential_roles_bound (prs : Presentation) :
  exists m,
    analyze_layouts prs = Ok m
    /\ (0 < length (slide_layouts prs) ->
        exists bt bs, m !! "title" = Some (Some bt) /\ m !! "section" = Some (Some bs))
    /\ (1 < length (slide_layouts prs) ->
        exists bc, m !! "content" = Some (Some bc)).
Proof.
  destruct (analyze_layouts_spec prs) as (m & Hrun & Ht & Hc & Hs & _).
  exists m. split; [exact Hrun|].
  unfold resolved_section, resolved_content, resolved_title in *.
  destruct (slide_layouts prs) as [|l0 [|l1 ls]]; simpl; split; try lia; intros _;
    destruct (first_matching "title" _), (first_matching "section" _),
      (first_matching "content" _); eauto.
Qed.

Lemma essential_roles_bound_witness :
  exists m,
    analyze_layouts (template ["One"; "Two"]) = Ok m
    /\ (exists bt bs, m !! "title" = Some (Some bt) /\ m !! "section" = Some (Some bs))
    /\ (exists bc, m !! "content" = Some (Some bc)).
Proof.
  destruct (essential_roles_bound (template ["One"; "Two"])) as (m & Hrun & H1 & H2).
  exists m. split; [exact Hrun|]. split; [apply H1|apply H2]; simpl; lia.
Defined.

(** X15. When no layout name matches [section], the layout map binds
    [section] to the very binding of [title], found or fallen back to. *)
Theorem section_shares_title_binding (prs : Presentation) :
  Forall (fun l => name_matches ["Section Header"; "Section"] (layout_name l) = false)
    (slide_layouts prs) ->
  exists m, analyze_layouts prs = Ok m /\ m !! "section" = m !! "title".
Proof.
  intros Hnone.
  change ["Section Header"; "Section"] with (accepted "section") in Hnone.
  apply first_matching_none in Hnone.
  destruct (analyze_layouts_spec prs) as (m & Hrun & Ht & _ & Hs & _).
  exists m. split; [exact Hrun|].
  rewrite Hs, Ht. unfold resolved_section. rewrite Hnone. reflexivity.
Qed.

Lemma section_shares_title_binding_witness :
  exists m,
    analyze_layouts (template ["Blank"; "Title Slide"]) = Ok m
    /\ m !! "section" = m !! "title".
Proof.
  apply (section_shares_title_binding (template ["Blank"; "Title Slide"])).
  repeat constructor.
Defined.

Lemma lower_char_idem c : Py.lower_char (Py.lower_char c) = Py.lower_char c.
Proof. destruct c as [[] [] [] [] [] [] [] []]; reflexivity. Qed.

Lemma lower_idem s : Py.lower (Py.lower s) = Py.lower s.
Proof.
  induction s as [|c s IH]; [reflexivity|]. simpl. rewrite lower_char_idem, IH.
  reflexivity.
Qed.

Lemma name_matches_lower names n :
  name_matches names (Py.lower n) = name_matches names n.
Proof. unfold name_matches. rewrite lower_idem. reflexivity. Qed.

Lemma first_match_lower names layouts start :
  first_match names
    (Py.enumerate_from start (slide_layouts (lower_names
       {| slide_layouts := layouts; slides := [] |})))
  = (fun item => (fst item,
                  {| layout_name := Py.lower (layout_name (snd item));
                     layout_placeholders := layout_placeholders (snd item) |}))
      <$> first_match names (Py.enumerate_from start layouts).
Proof.
  revert start. induction layouts as [|l layouts IH]; intros start; [reflexivity|].
  simpl. rewrite name_matches_lower.
  destruct (name_matches names (layout_name l)); [reflexivity|]. apply IH.
Qed.

Lemma first_matching_lower key prs :
  index <$> first_matching key (slide_layouts (lower_names prs))
  = index <$> first_matching key (slide_layouts prs).
Proof.
  unfold first_matching, Py.enumerate.
  pose proof (first_match_lower (accepted key) (slide_layouts prs) 0) as H.
  simpl in H. simpl. rewrite H.
  destruct (first_match (accepted key) (Py.enumerate_from 0 (slide_layouts prs)));
    reflexivity.
Qed.

Lemma resolved_title_lower prs :
  index <$> resolved_title (slide_layouts (lower_names prs))
  = index <$> resolved_title (slide_layouts prs).
Proof.
  unfold resolved_title. pose proof (first_matching_lower "title" prs) as F.
  destruct (first_matching "title" (slide_layouts (lower_names prs))),
    (first_matching "title" (slide_layouts prs)); simpl in *; try congruence.
  destruct (slide_layouts prs); reflexivity.
Qed.

Lemma resolved_content_lower prs :
  index <$> resolved_content (slide_layouts (lower_names prs))
  = index <$> resolved_content (slide_layouts prs).
Proof.
  unfold resolved_content. pose proof (first_matching_lower "content" prs) as F.
  destruct (first_matching "content" (slide_layouts (lower_names prs))),
    (first_matching "content" (slide_layouts prs)); simpl in *; try congruence.
  destruct (slide_layouts prs) as [|? [|? ?]]; reflexivity.
Qed.

Lemma resolved_section_lower prs :
  index <$> resolved_section (slide_layouts (lower_names prs))
  = index <$> resolved_section (slide_layouts prs).
Proof.
  unfold resolved_section. pose proof (first_matching_lower "section" prs) as F.
  destruct (first_matching "section" (slide_layouts (lower_names prs))),
    (first_matching "section" (slide_layouts prs)); simpl in *; try congruence.
  apply resolved_title_lower.
Qed.

Lemma bound_index_lookup (m : gmap string (option LayoutBinding)) key v :
  m !! key = Some v -> bound_index m key = Some (index <$> v).
Proof. unfold bound_index. intros ->. destruct v; reflexivity. Qed.

(** X16. The scan is blind to the case of layout names: a template and the
    same template with every layout name in lower case get the same layout
    index, or none, for every role. *)
Theorem resolution_ignores_case (prs : Presentation) (key : string) :
  exists m m',
    analyze_layouts prs = Ok m
    /\ analyze_layouts (lower_names prs) = Ok m'
    /\ bound_index m' key = bound_index m key.
Proof.
  destruct (analyze_layouts_spec prs) as (m & Hrun & Ht & Hc & Hs & Hp & Hb).
  destruct (analyze_layouts_spec (lower_names prs))
    as (m' & Hrun' & Ht' & Hc' & Hs' & Hp' & Hb').
  exists m, m'. split; [exact Hrun|]. split; [exact Hrun'|].
  destruct (decide (key ∈ dom m)) as [Hin|Hout].
  - rewrite (analyze_layouts_dom prs m Hrun) in Hin. unfold initial_layouts in Hin.
    rewrite !dom_insert_L, dom_empty_L, !elem_of_union, !elem_of_singleton,
      elem_of_empty in Hin.
    destruct Hin as [->|[->|[->|[->|[->|[]]]]]];
      erewrite !bound_index_lookup by eassumption; f_equal.
    + apply resolved_title_lower.
    + apply resolved_section_lower.
    + apply resolved_content_lower.
    + apply first_matching_lower.
    + apply first_matching_lower.
  - assert (key ∉ dom m') as Hout'.
    { rewrite (analyze_layouts_dom _ m' Hrun'), <- (analyze_layouts_dom prs m Hrun).
      exact Hout. }
    apply not_elem_of_dom in Hout, Hout'. unfold bound_index.
    rewrite Hout, Hout'. reflexivity.
Qed.

(** X17. The fallbacks go by position alone: when no layout name matches
    [title] the first layout is bound to it, and when no layout name matches
    [content] the second layout is bound to it, whatever these layouts are
    called. *)
Theorem fallbacks_by_position (prs : Presentation) (l0 l1 : Layout) (rest : list Layout) :
  slide_layouts prs = l0 :: l1 :: rest ->
  exists m,
    analyze_layouts prs = Ok m
    /\ (Forall (fun l => name_matches ["Title Slide"; "Title"] (layout_name l) = false)
          (slide_layouts prs) ->
        m !! "title" = Some (Some (bind_layout 0 l0)))
    /\ (Forall (fun l => name_matches
                           ["Title and Content"; "Content"; "Two Content"; "Comparison"]
                           (layout_name l) = false)
          (slide_layouts prs) ->
        m !! "content" = Some (Some (bind_layout 1 l1))).
Proof.
  intros Hshape.
  destruct (analyze_layouts_spec prs) as (m & Hrun & Ht & Hc & _).
  exists m. split; [exact Hrun|].
  change ["Title Slide"; "Title"] with (accepted "title").
  change ["Title and Content"; "Content"; "Two Content"; "Comparison"]
    with (accepted "content").
  rewrite <- !first_matching_none.
  unfold resolved_title, resolved_content in *.
  split; intros Hnone; rewrite Hnone in *; rewrite Hshape in *; assumption.
Qed.

Lemma fallbacks_by_position_witness :
  exists m,
    analyze_layouts (template ["One"; "Two"; "Three"]) = Ok m
    /\ m !! "title" = Some (Some (bind_layout 0 (named "One")))
    /\ m !! "content" = Some (Some (bind_layout 1 (named "Two"))).
Proof.
  destruct (fallbacks_by_position (template ["One"; "Two"; "Three"])
              (named "One") (named "Two") [named "Three"] eq_refl)
    as (m & Hrun & Ht & Hc).
  exists m. split; [exact Hrun|].
  split; [apply Ht|apply Hc]; repeat constructor.
Defined.

End LayoutFallbacks.

(** ** pptx_creator.py: which placeholder gets which text *)

Section Placeholders.
Import Pptx Json TemplateManager PPTXCreator LayoutSpec DeckSpec ShapeSpec.

Lemma scan_content_from shapes start found :
  fold_left
    (fun found item =>
       let sh : Shape := snd item in
       if negb (is_placeholder sh) then found
       else if (placeholder_type sh =? 1)%Z then (Some (fst item), snd found)
       else if is_content_type (placeholder_type sh) then (fst found, Some (fst item))
       else found)
    (Py.enumerate_from start shapes) found
  = (match last_index_from is_title_shape start shapes with
     | Some i => Some i
     | None => fst found
     end,
     match last_index_from is_body_shape start shapes with
     | Some i => Some i
     | None => snd found
     end).
Proof.
  revert start found. induction shapes as [|sh shapes IH]; intros start [t b].
  - reflexivity.
  - cbn [Py.enumerate_from fold_left last_index_from]. rewrite IH.
    unfold is_title_shape, is_body_shape, is_content_type. cbn [fst snd].
    destruct (last_index_from _ (S start) shapes),
      (last_index_from _ (S start) shapes);
      destruct (is_placeholder sh); cbn [negb andb]; try reflexivity;
      destruct (placeholder_type sh =? 1)%Z eqn:H1; cbn [fst snd]; try reflexivity;
      try (apply Z.eqb_eq in H1; rewrite H1; reflexivity);
      destruct ((placeholder_type sh =? 2) || (placeholder_type sh =? 3)
                || (placeholder_type sh =? 7) || (placeholder_type sh =? 8)
                || (placeholder_type sh =? 18))%Z; reflexivity.
Qed.

Lemma scan_content_last shapes :
  scan_content_slide shapes
  = (last_index is_title_shape shapes, last_index is_body_shape shapes).
Proof.
  unfold scan_content_slide, Py.enumerate, last_index.
  rewrite scan_content_from. cbn [fst snd].
  destruct (last_index_from is_title_shape 0 shapes),
    (last_index_from is_body_shape 0 shapes); reflexivity.
Qed.

Lemma last_index_from_none p shapes start j sh :
  last_index_from p start shapes = None -> shapes !! j = Some sh -> p sh = false.
Proof.
  revert start j. induction shapes as [|s0 shapes IH]; intros start j; simpl.
  - destruct j; discriminate.
  - destruct (last_index_from p (S start) shapes) eqn:Hr; [discriminate|].
    destruct (p s0) eqn:Hp0; [discriminate|]. intros _.
    destruct j as [|j]; simpl; [congruence|]. apply (IH (S start) j Hr).
Qed.

Lemma last_index_from_spec p shapes start i :
  last_index_from p start shapes = Some i ->
  start <= i
  /\ (exists sh, shapes !! (i - start) = Some sh /\ p sh = true)
  /\ (forall j sh, i - start < j -> shapes !! j = Some sh -> p sh = false).
Proof.
  revert start. induction shapes as [|sh shapes IH]; intros start; simpl.
  - discriminate.
  - destruct (last_index_from p (S start) shapes) as [k|] eqn:Hrest.
    + intros [= <-]. destruct (IH (S start) Hrest) as (Hle & (sh' & Hat & Hp) & Hlast).
      split; [lia|]. replace (k - start) with (S (k - S start)) by lia.
      split; [exists sh'; split; assumption|].
      intros [|j] sh'' Hlt Hj; [lia|]. simpl in Hj.
      apply (Hlast j sh''); [lia|exact Hj].
    + destruct (p sh) eqn:Hp; [|discriminate]. intros [= <-].
      rewrite Nat.sub_diag. split; [lia|]. split; [exists sh; split; trivial|].
      intros [|j] sh' Hlt Hj; [lia|]. simpl in Hj.
      apply (last_index_from_none p shapes (S start) j sh' Hrest Hj).
Qed.



Lemma write_bullets_from texts n frame :
  for_each write_bullet (Py.enumerate_from (S n) (map JStr texts)) frame
  = Ok (frame ++ bullet_paragraphs texts).
Proof.
  revert n frame. induction texts as [|t texts IH]; intros n frame; simpl.
  - rewrite app_nil_r. reflexivity.
  - unfold write_bullet at 1. cbn [fst snd Nat.eqb bind].
    rewrite IH, <- app_assoc. reflexivity.
Qed.

Lemma write_bullets_all t texts :
  for_each write_bullet (Py.enumerate (map JStr (t :: texts)))
    [{| p_text := ""; p_level := 0 |}]
  = Ok (bullet_paragraphs (t :: texts)).
Proof.
  unfold Py.enumerate. simpl. unfold write_bullet at 1. cbn [fst snd Nat.eqb bind].
  rewrite write_bullets_from. reflexivity.
Qed.

Lemma set_title_length ph items sl sl' :
  set_title ph items sl = Ok sl' -> length (shapes sl') = length (shapes sl).
Proof.
  unfold set_title. destruct ph as [i|]; [|intros [= <-]; reflexivity].
  destruct (lookup "title" items) as [v|]; [|intros [= <-]; reflexivity].
  destruct v; simpl; try discriminate. intros [= <-]. simpl. apply length_alter.
Qed.

(** X19. On a content slide with a content placeholder, a non-empty list of
    bullet strings becomes the paragraphs of that placeholder: one paragraph
    per bullet, in the order of the list, all at level 0, and nothing of the
    former text is left. *)
Theorem bullets_become_paragraphs (sl : Slide) (items : list (string * value))
    (t : string) (texts : list string) (i : nat) :
  snd (scan_content_slide (shapes sl)) = Some i ->
  lookup "bullets" items = Some (JList (map JStr (t :: texts))) ->
  text_ok "title" items = true ->
  optional_text_ok "notes" items = true ->
  exists sl',
    _create_content_slide sl items = Ok sl'
    /\ text_frame <$> shapes sl' !! i = Some (bullet_paragraphs (t :: texts)).
Proof.
  intros Hscan Hbullets Htitle Hnotes.
  pose proof Hscan as Hlast. rewrite scan_content_last in Hlast.
  destruct (last_index_from_spec is_body_shape (shapes sl) 0 i Hlast)
    as (_ & (sh & Hat & _) & _).
  rewrite Nat.sub_0_r in Hat.
  unfold _create_content_slide. rewrite Hscan.
  destruct (set_title_ok (fst (scan_content_slide (shapes sl))) items sl Htitle)
    as (sl1 & Hsl1 & _). rewrite Hsl1. cbn [bind snd].
  pose proof (set_title_length _ _ _ _ Hsl1) as Hlen.
  assert (is_Some (shapes sl1 !! i)) as [sh1 Hat1].
  { apply lookup_lt_is_Some. rewrite Hlen. apply lookup_lt_is_Some. eauto. }
  unfold set_bullets. rewrite Hbullets.
  change (truthy (JList (map JStr (t :: texts)))) with true. cbn [iter bind].
  rewrite write_bullets_all. cbn [bind].
  destruct (add_notes_ok items
              {| slide_layout := slide_layout sl1;
                 shapes := alter (fun sh0 => {| is_placeholder := is_placeholder sh0;
                                                placeholder_type := placeholder_type sh0;
                                                text_frame := bullet_paragraphs (t :: texts) |})
                             i (shapes sl1);
                 notes_text := notes_text sl1 |} Hnotes) as (sl3 & Hsl3 & _).
  exists sl3. split; [exact Hsl3|].
  rewrite add_notes_spec in Hsl3.
  assert (shapes sl3 = alter (fun sh0 => {| is_placeholder := is_placeholder sh0;
                                            placeholder_type := placeholder_type sh0;
                                            text_frame := bullet_paragraphs (t :: texts) |})
                         i (shapes sl1)) as ->.
  { destruct (lookup "notes" items) as [[| | |notes| |]|];
      repeat match type of Hsl3 with
             | context [if ?c then _ else _] => destruct c
             end; try discriminate; injection Hsl3 as <-; reflexivity. }
  rewrite list_lookup_alter_eq, Hat1. reflexivity.
Qed.

Lemma bullets_become_paragraphs_witness :
  exists sl',
    _create_content_slide (new_slide 1 body_layout) notes_entry = Ok sl'
    /\ text_frame <$> shapes sl' !! 1%nat = Some (bullet_paragraphs ["A"; "B"; "C"]).
Proof.
  apply (bullets_become_paragraphs (new_slide 1 body_layout) notes_entry
           "A" ["B"; "C"] 1); reflexivity.
Defined.

Lemma last_index_from_no p shapes start :
  Forall (fun sh => p sh = false) shapes -> last_index_from p start shapes = None.
Proof.
  intros Hall. revert start.
  induction Hall as [|sh shapes Hsh _ IH]; intros start; simpl; [reflexivity|].
  rewrite IH, Hsh. reflexivity.
Qed.

Lemma new_slide_no_shape (p : Z -> bool) i layout :
  Forall (fun ph => p (ph_type ph) = false) (layout_placeholders layout) ->
  last_index (fun sh => is_placeholder sh && p (placeholder_type sh))
    (shapes (new_slide i layout)) = None.
Proof.
  intros Hp. apply last_index_from_no. simpl.
  induction Hp as [|ph phs Hph _ IH]; simpl; [constructor|].
  destruct (cloneable ph); [|exact IH].
  constructor; [|exact IH]. simpl. exact Hph.
Qed.

(** X20. A layout that offers no placeholder of kind 1 and none of kind 2, 3,
    7, 8 or 18 makes the content slide drop the title and the bullets without
    an error, whatever their type: only the notes are handled. *)
Theorem texts_without_placeholder_are_dropped (i : nat) (layout : Layout)
    (items : list (string * value)) :
  Forall (fun ph => (ph_type ph =? 1)%Z = false /\ is_content_type (ph_type ph) = false)
    (layout_placeholders layout) ->
  _create_content_slide (new_slide i layout) items = add_notes items (new_slide i layout).
Proof.
  intros Hall. unfold _create_content_slide. rewrite scan_content_last.
  unfold is_title_shape, is_body_shape.
  rewrite (new_slide_no_shape (fun t => (t =? 1)%Z)),
    (new_slide_no_shape is_content_type).
  - reflexivity.
  - eapply Forall_impl; [exact Hall|]. simpl. tauto.
  - eapply Forall_impl; [exact Hall|]. simpl. tauto.
Qed.

Lemma texts_without_placeholder_are_dropped_witness :
  _create_content_slide (new_slide 0 (named "Blank"))
    [("title", JNum 5); ("bullets", JNum 7)]
  = Ok (new_slide 0 (named "Blank")).
Proof.
  rewrite (texts_without_placeholder_are_dropped 0 (named "Blank")); [reflexivity|].
  constructor.
Defined.

(** X21. Title slides and section slides treat the notes as content slides
    do: truthy string notes are written to the notes frame, formatted. *)
Theorem notes_on_title_and_section_slides (sl : Slide) (items : list (string * value))
    (notes : string) :
  lookup "notes" items = Some (JStr notes) ->
  Py.truthy notes = true ->
  text_ok "title" items = true ->
  optional_text_ok "subtitle" items = true ->
  (exists sl', _create_title_slide sl items = Ok sl'
               /\ notes_text sl' = Some (Utils.format_slide_notes notes))
  /\ (exists sl', _create_section_slide sl items = Ok sl'
                  /\ notes_text sl' = Some (Utils.format_slide_notes notes)).
Proof.
  intros Hnotes Htruthy Ht Hs. split.
  - unfold _create_title_slide.
    destruct (set_title_ok (fst (scan_title_slide (shapes sl))) items sl Ht)
      as (sl1 & -> & _). cbn [bind].
    destruct (set_subtitle_ok (snd (scan_title_slide (shapes sl))) items sl1 Hs)
      as (sl2 & -> & _). cbn [bind].
    rewrite add_notes_spec, Hnotes, Htruthy. eexists. split; reflexivity.
  - unfold _create_section_slide.
    destruct (set_title_ok (scan_section_slide (shapes sl)) items sl Ht)
      as (sl1 & -> & _). cbn [bind].
    rewrite add_notes_spec, Hnotes, Htruthy. eexists. split; reflexivity.
Qed.

Lemma notes_on_title_and_section_slides_witness :
  exists sl',
    _create_title_slide (new_slide 0 body_layout)
      [("title", JStr "Deck"); ("notes", JStr " say hello ")] = Ok sl'
    /\ notes_text sl' = Some "say hello".
Proof.
  apply (proj1 (notes_on_title_and_section_slides (new_slide 0 body_layout)
                  [("title", JStr "Deck"); ("notes", JStr " say hello ")]
                  " say hello " eq_refl eq_refl eq_refl eq_refl)).
Defined.

End Placeholders.
(** ** pptx_creator.py and wordtoppt.py: whole runs *)

Section WholeRuns.
Import Pptx Json TemplateManager PPTXCreator LayoutSpec DeckSpec RunSpec.

Variable default_presentation : Presentation.

Lemma add_notes_layout items sl sl' :
  add_notes items sl = Ok sl' -> slide_layout sl' = slide_layout sl.
Proof.
  unfold add_notes. destruct (lookup "notes" items) as [v|]; [|intros [= <-]; reflexivity].
  destruct (truthy v); [|intros [= <-]; reflexivity].
  destruct (format_notes_value v); simpl; [|discriminate]. intros [= <-]. reflexivity.
Qed.

Lemma set_title_layout ph items sl sl' :
  set_title ph items sl = Ok sl' -> slide_layout sl' = slide_layout sl.
Proof.
  unfold set_title. destruct ph; [|intros [= <-]; reflexivity].
  destruct (lookup "title" items) as [v|]; [|intros [= <-]; reflexivity].
  destruct (set_text (shapes sl) n v); simpl; [|discriminate].
  intros [= <-]. reflexivity.
Qed.

Lemma set_subtitle_layout ph items sl sl' :
  set_subtitle ph items sl = Ok sl' -> slide_layout sl' = slide_layout sl.
Proof.
  unfold set_subtitle. destruct ph; [|intros [= <-]; reflexivity].
  destruct (lookup "subtitle" items) as [v|]; [|intros [= <-]; reflexivity].
  destruct (truthy v); [|intros [= <-]; reflexivity].
  destruct (set_text (shapes sl) n v); simpl; [|discriminate].
  intros [= <-]. reflexivity.
Qed.

Lemma set_bullets_layout ph items sl sl' :
  set_bullets ph items sl = Ok sl' -> slide_layout sl' = slide_layout sl.
Proof.
  unfold set_bullets. destruct ph; [|intros [= <-]; reflexivity].
  destruct (lookup "bullets" items) as [v|]; [|intros [= <-]; reflexivity].
  destruct (truthy v); [|intros [= <-]; reflexivity].
  destruct (iter v); simpl; [|discriminate].
  destruct (for_each write_bullet _ _); simpl; [|discriminate].
  intros [= <-]. reflexivity.
Qed.

(** Whatever the slide routine, a filled slide stays on its layout. *)
Lemma filled_slide_layout ty sl items sl' :
  (if eq_str ty "title" then _create_title_slide sl items
   else if eq_str ty "section" then _create_section_slide sl items
   else _create_content_slide sl items) = Ok sl' ->
  slide_layout sl' = slide_layout sl.
Proof.
  unfold _create_title_slide, _create_section_slide, _create_content_slide.
  destruct (eq_str ty "title"); [|destruct (eq_str ty "section")];
    repeat match goal with
           | |- (let* x := ?r in _) = Ok _ -> _ =>
               let H := fresh "H" in
               destruct r eqn:H; cbn [bind]; [|discriminate]
           end;
    intros Hn; apply add_notes_layout in Hn;
    repeat match goal with
           | H : set_title _ _ _ = Ok _ |- _ => apply set_title_layout in H
           | H : set_subtitle _ _ _ = Ok _ |- _ => apply set_subtitle_layout in H
           | H : set_bullets _ _ _ = Ok _ |- _ => apply set_bullets_layout in H
           end; congruence.
Qed.

Lemma create_slide_chosen (m : gmap string (option LayoutBinding)) prs entry prs' :
  create_slide (Some m) prs entry = Ok prs' ->
  exists sl, prs' = add_slide prs sl /\ slide_layout sl = entry_layout prs m entry.
Proof.
  unfold create_slide, entry_layout.
  destruct entry as [| | | | |items]; try discriminate.
  rewrite get_slide_type. cbn [bind]. rewrite select_layout_chosen. cbn [bind].
  destruct (layout_at prs _) as [layout|]; [|discriminate]. cbn [bind items_of].
  match goal with
  | |- (let* sl := ?filled in _) = _ -> _ => destruct filled as [sl|] eqn:Hfill
  end; [|discriminate].
  cbn [bind]. intros [= <-]. exists sl. split; [reflexivity|].
  apply filled_slide_layout in Hfill. exact Hfill.
Qed.

Lemma entry_layout_add_slide prs m sl entry :
  entry_layout (add_slide prs sl) m entry = entry_layout prs m entry.
Proof. reflexivity. Qed.

Lemma populate_loop_layouts (m : gmap string (option LayoutBinding)) entries prs prs' :
  for_each (create_slide (Some m)) entries prs = Ok prs' ->
  exists new,
    slides prs' = slides prs ++ new
    /\ map slide_layout new = map (entry_layout prs m) entries.
Proof.
  revert prs. induction entries as [|e entries IH]; intros prs; simpl.
  - intros [= <-]. exists []. rewrite app_nil_r. auto.
  - destruct (create_slide (Some m) prs e) as [prs1|] eqn:He; [|discriminate].
    cbn [bind]. intros Hrest.
    destruct (create_slide_chosen m prs e prs1 He) as (sl & -> & Hl).
    destruct (IH _ Hrest) as (new & Hnew & Hmap).
    exists (sl :: new). simpl in Hnew. rewrite Hnew, <- app_assoc. simpl.
    split; [reflexivity|]. rewrite Hl. f_equal. exact Hmap.
Qed.

Lemma populate_layouts (m : gmap string (option LayoutBinding))
    (raw : value) (entries : list value) (prs prs' : Presentation) :
  outline_slides raw = Ok entries ->
  populate raw (Some m) prs = Ok prs' ->
  exists new,
    slides prs' = slides prs ++ new
    /\ map slide_layout new = map (entry_layout prs m) entries.
Proof.
  unfold outline_slides, populate.
  destruct (get raw "slides" (JList [])) as [v|]; [|discriminate]. cbn [bind].
  intros ->. cbn [bind]. apply populate_loop_layouts.
Qed.

(** X22. A population that succeeds keeps the slides the presentation had and
    appends one slide per entry of the outline, in the order of the outline,
    each on the layout chosen for the slide type of its entry. *)
Theorem slides_follow_outline (m : gmap string (option LayoutBinding))
    (raw : value) (entries : list value) (prs prs' : Presentation) :
  outline_slides raw = Ok entries ->
  populate raw (Some m) prs = Ok prs' ->
  exists new,
    slides prs' = slides prs ++ new
    /\ map slide_layout new = map (entry_layout prs m) entries.
Proof. apply populate_layouts. Qed.

Lemma slides_follow_outline_witness :
  exists prs' new,
    populate two_entry_outline (Some initial_layouts) deck_template = Ok prs'
    /\ slides prs' = slides deck_template ++ new
    /\ map slide_layout new = [0; 1].
Proof.
  destruct (populate two_entry_outline (Some initial_layouts) deck_template)
    as [prs'|e] eqn:Hrun; [|discriminate].
  destruct (slides_follow_outline initial_layouts two_entry_outline
              [JDict title_entry; JDict notes_entry] deck_template prs' eq_refl Hrun)
    as (new & Hnew & Hmap).
  exists prs', new. split; [reflexivity|]. split; [exact Hnew|exact Hmap].
Defined.


(** X24. When the file at the template path cannot be opened as a
    presentation, the run fails with [RuntimeError] before it copies
    anything: the files are unchanged. *)
Theorem run_without_readable_template (content : value) (output_file t : string)
    (fs : gmap string File) :
  Py.truthy t = true ->
  is_ok (open_presentation fs t) = false ->
  WordToPPT.create_presentation default_presentation content output_file (Some t) fs
  = (fs, Raise (RuntimeError OSError)).
Proof.
  intros Ht Hopen. unfold WordToPPT.create_presentation, path_given, analyze_template.
  rewrite Ht. unfold open_presentation in *.
  destruct (fs !! t) as [[prs|bytes]|]; try discriminate; reflexivity.
Qed.

(** X25. Without a template there is no layout map, and the first entry that
    is not a title slide ends the run with a [TypeError], wrapped in
    [RuntimeError]: only outlines made of title slides can be populated on
    the built-in presentation. No file is written. *)
Theorem run_without_template (content : value) (output_file : string)
    (fs : gmap string File) (items : list (string * value)) (rest : list value) :
  outline_slides content = Ok (JDict items :: rest) ->
  eq_str (slide_type_of items) "title" = false ->
  WordToPPT.create_presentation default_presentation content output_file None fs
  = (fs, Raise (RuntimeError TypeError)).
Proof.
  intros Hslides Htitle.
  unfold WordToPPT.create_presentation, create_presentation, path_given, populate.
  unfold outline_slides in Hslides.
  destruct (get content "slides" (JList [])) as [v|]; [|discriminate].
  cbn [bind] in *. rewrite Hslides. cbn [bind for_each].
  unfold create_slide. rewrite get_slide_type. cbn [bind].
  unfold select_layout. rewrite Htitle.
  destruct (eq_str (slide_type_of items) "section"); reflexivity.
Qed.

(** X26. On a template without any layout no slide can be created: every
    entry that is a mapping raises [IndexError], whatever its type and
    whatever the layout map. *)
Theorem no_layout_no_slide (m : gmap string (option LayoutBinding))
    (prs : Presentation) (items : list (string * value)) :
  slide_layouts prs = [] ->
  create_slide (Some m) prs (JDict items) = Raise IndexError.
Proof.
  intros Hnone. unfold create_slide. rewrite get_slide_type. cbn [bind].
  rewrite select_layout_chosen. cbn [bind]. unfold layout_at. rewrite Hnone.
  reflexivity.
Qed.

Lemma no_layout_no_slide_witness :
  create_slide (Some initial_layouts) (template []) (JDict title_entry)
  = Raise IndexError.
Proof. apply (no_layout_no_slide initial_layouts (template []) title_entry). reflexivity. Defined.




End WholeRuns.

Section WholeRunExamples.
Import Pptx Json TemplateManager PPTXCreator LayoutSpec DeckSpec RunSpec.


Lemma run_without_readable_template_witness :
  WordToPPT.create_presentation deck_template two_entry_outline "out.pptx"
    (Some "missing.pptx") files
  = (files, Raise (RuntimeError OSError)).
Proof.
  apply (run_without_readable_template deck_template two_entry_outline "out.pptx" "missing.pptx" files);
    reflexivity.
Defined.

Lemma run_without_template_witness :
  WordToPPT.create_presentation deck_template
    (JDict [("slides", JList [JDict chart_entry])]) "out.pptx" None files
  = (files, Raise (RuntimeError TypeError)).
Proof.
  apply (run_without_template deck_template (JDict [("slides", JList [JDict chart_entry])])
           "out.pptx" files chart_entry []); reflexivity.
Defined.


End WholeRunExamples.

(** ** ai_generator.py *)

Section Prompts.
Import Json DocxParser AIGenerator PromptSpec.

Lemma append_assoc (a b c : string) : (a +:+ b) +:+ c = a +:+ (b +:+ c).
Proof.
  induction a as [|x a IH]; [reflexivity|].
  change (String x ((a +:+ b) +:+ c) = String x (a +:+ (b +:+ c))).
  rewrite IH. reflexivity.
Qed.

Lemma append_nil_r (a : string) : a +:+ "" = a.
Proof.
  induction a as [|x a IH]; [reflexivity|].
  change (String x (a +:+ "") = String x a). rewrite IH. reflexivity.
Qed.

Lemma startswith_spec s p :
  Py.startswith s p = true <-> exists rest, s = p +:+ rest.
Proof.
  revert s. induction p as [|c p IH]; intros s.
  - split; [eauto|]. intros _. destruct s; reflexivity.
  - destruct s as [|c' s]; simpl.
    + split; [discriminate|]. intros [rest H]. discriminate.
    + rewrite andb_true_iff, IH. split.
      * intros [Hc [rest ->]]. apply Ascii.eqb_eq in Hc as ->. eauto.
      * intros [rest [= -> ->]]. split; [apply Ascii.eqb_refl|eauto].
Qed.

(** [needle in hay] holds exactly when [hay] is [needle] with something
    before and after it. *)
Lemma contains_spec needle hay :
  Py.contains needle hay = true <-> exists a b, hay = a +:+ needle +:+ b.
Proof.
  induction hay as [|c hay IH].
  - change (Py.contains needle "") with (Py.startswith "" needle || false).
    rewrite orb_false_r, startswith_spec. split.
    + intros [rest H]. exists "", rest. exact H.
    + intros (a & b & H). destruct a; [|discriminate]. eauto.
  - change (Py.contains needle (String c hay))
      with (Py.startswith (String c hay) needle || Py.contains needle hay).
    rewrite orb_true_iff, IH, startswith_spec. split.
    + intros [[rest H]|(a & b & ->)].
      * exists "", rest. exact H.
      * exists (String c a), b. reflexivity.
    + intros (a & b & H). destruct a as [|c' a].
      * left. eauto.
      * right. injection H as _ ->. eauto.
Qed.

Lemma contains_trans a b c :
  Py.contains a b = true -> Py.contains b c = true -> Py.contains a c = true.
Proof.
  rewrite !contains_spec. intros (x & y & ->) (u & v & ->).
  exists (u +:+ x), (y +:+ v). rewrite !append_assoc. reflexivity.
Qed.

Lemma contains_middle a n b : Py.contains n (a +:+ n +:+ b) = true.
Proof. apply contains_spec. eauto. Qed.

Lemma contains_join sep line l :
  In line l -> Py.contains line (Py.join sep l) = true.
Proof.
  induction l as [|x l IH]; [intros []|].
  intros [->|Hin].
  - apply contains_spec. exists "". destruct l; simpl.
    + exists "". rewrite append_nil_r. reflexivity.
    + eauto.
  - specialize (IH Hin). destruct l as [|y l]; [destruct Hin|].
    apply contains_spec in IH as (a & b & Hj).
    apply contains_spec. exists (x +:+ sep +:+ a), b.
    change (Py.join sep (x :: y :: l)) with (x +:+ sep +:+ Py.join sep (y :: l)).
    rewrite Hj, !append_assoc. reflexivity.
Qed.

Lemma sections_text_acc secs acc :
  fold_left (fun text section => text +:+ section_prompt section) secs acc
  = acc +:+ fold_left (fun text section => text +:+ section_prompt section) secs "".
Proof.
  revert acc. induction secs as [|s secs IH]; intros acc; simpl.
  - rewrite append_nil_r. reflexivity.
  - change ("" +:+ section_prompt s) with (section_prompt s).
    rewrite (IH (acc +:+ _)), (IH (section_prompt s)), append_assoc. reflexivity.
Qed.

Lemma contains_sections_text s secs :
  In s secs ->
  Py.contains (section_prompt s)
    (fold_left (fun text section => text +:+ section_prompt section) secs "") = true.
Proof.
  induction secs as [|s' secs IH]; [intros []|].
  simpl. change ("" +:+ section_prompt s') with (section_prompt s').
  rewrite sections_text_acc. intros [->|Hin].
  - apply contains_spec. exists "". eauto.
  - apply contains_spec. apply IH, contains_spec in Hin as (a & b & ->).
    exists (section_prompt s' +:+ a), b. rewrite !append_assoc. reflexivity.
Qed.

Lemma contains_prompt_sections content s :
  In s (sections content) ->
  Py.contains (section_prompt s) (_create_prompt content) = true.
Proof.
  intros Hin. apply (contains_trans _ _ _ (contains_sections_text s _ Hin)).
  unfold _create_prompt. apply contains_spec.
  exists (instructions +:+ "Document Title: " +:+ title content +:+ nl
          +:+ "Document Content:"), "".
  rewrite append_nil_r, !append_assoc. reflexivity.
Qed.

(** X28. The prompt leaves nothing of the document's sections out: it
    carries the title, and for every section its heading text and every line
    of its content. *)
Theorem prompt_carries_document (content : Content) :
  Py.contains (title content) (_create_prompt content) = true
  /\ forall s, In s (sections content) ->
       Py.contains (heading_text (heading s)) (_create_prompt content) = true
       /\ forall line, In line (DocxParser.content s) ->
            Py.contains line (_create_prompt content) = true.
Proof.
  split.
  - unfold _create_prompt. apply contains_spec.
    exists (instructions +:+ "Document Title: "). eexists.
    rewrite !append_assoc. reflexivity.
  - intros s Hin. pose proof (contains_prompt_sections content s Hin) as Hs. split.
    + refine (contains_trans _ _ _ _ Hs). unfold section_prompt.
      apply contains_spec. exists (nl +:+ "Section: "). eexists.
      rewrite !append_assoc. reflexivity.
    + intros line Hline. refine (contains_trans _ _ _ _ Hs).
      apply (contains_trans _ _ _ (contains_join nl line _ Hline)).
      unfold section_prompt. apply contains_spec.
      exists (nl +:+ "Section: " +:+ heading_text (heading s) +:+ nl +:+ "Content:" +:+ nl).
      exists nl. rewrite !append_assoc. reflexivity.
Qed.

Lemma prompt_carries_document_witness :
  Py.contains "second" (_create_prompt sample_content) = true.
Proof.
  apply (proj2 (prompt_carries_document sample_content)
           {| heading := {| level := 1; heading_text := "Intro" |};
              content := ["first"; "second"] |}).
  - left. reflexivity.
  - right. left. reflexivity.
Defined.

End Prompts.

Section Responses.
Import Json DocxParser AIGenerator PromptSpec.

Variable chat_completion : string -> result string.
Variable json_loads : string -> option value.

Lemma lstrip_idem s : Py.lstrip (Py.lstrip s) = Py.lstrip s.
Proof. apply lstrip_clean, lstrip_starts_clean. Qed.

Lemma strip_lstrip s : Py.strip (Py.lstrip s) = Py.strip s.
Proof. unfold Py.strip. rewrite lstrip_idem. reflexivity. Qed.

Lemma lstrip_app s t :
  starts_clean t -> t <> "" -> Py.lstrip (s +:+ t) = Py.lstrip s +:+ t.
Proof.
  intros Hc Ht. induction s as [|c s IH]; simpl.
  - apply lstrip_clean, Hc.
  - destruct (Py.is_space c); [exact IH|reflexivity].
Qed.

Lemma slice_from_app s t : slice_from (String.length s) (s +:+ t) = t.
Proof. induction s as [|c s IH]; simpl; [destruct t; reflexivity|exact IH]. Qed.

Lemma slice_to_app s t : slice_to (String.length s) (s +:+ t) = s.
Proof. induction s as [|c s IH]; simpl; [destruct t; reflexivity|]. rewrite IH. reflexivity. Qed.

Lemma endswith_app s p : endswith (s +:+ p) p = true.
Proof.
  unfold endswith. rewrite append_length.
  replace (String.length s + String.length p - String.length p)
    with (String.length s) by lia.
  rewrite slice_from_app, String.eqb_refl, andb_true_r.
  apply Nat.leb_le. lia.
Qed.

Lemma slice_to_last_app s p : slice_to_last (String.length p) (s +:+ p) = s.
Proof.
  unfold slice_to_last. rewrite append_length.
  replace (String.length s + String.length p - String.length p)
    with (String.length s) by lia.
  apply slice_to_app.
Qed.

(** What is left of [x] followed by a closing fence. *)
Lemma unfence_tail x :
  (let content := Py.strip (x +:+ "```") in
   if endswith content "```" then Py.strip (slice_to_last 3 content) else content)
  = Py.strip x.
Proof.
  cbv zeta. unfold Py.strip at 1 3.
  rewrite lstrip_app by (simpl; congruence || reflexivity).
  rewrite rstrip_app by (simpl; discriminate).
  change (Py.rstrip "```") with "```".
  rewrite endswith_app.
  pose proof (slice_to_last_app (Py.lstrip x) "```") as Hcut.
  cbn [String.length] in Hcut. rewrite Hcut. apply strip_lstrip.
Qed.

Lemma startswith_before_fence s p :
  has_char "`" p = false ->
  Py.startswith s p = false -> Py.startswith (s +:+ "```") p = false.
Proof.
  revert s. induction p as [|c p IH]; intros s Hp Hs.
  - destruct s; discriminate.
  - simpl in Hp. apply orb_false_iff in Hp as [Hc Hp].
    destruct s as [|c' s].
    + change (Py.startswith ("" +:+ "```") (String c p))
        with (Ascii.eqb "`" c && Py.startswith "``" p).
      rewrite Ascii.eqb_sym, Hc. reflexivity.
    + change (String c' s +:+ "```") with (String c' (s +:+ "```")).
      simpl in Hs |- *. destruct (Ascii.eqb c' c); [|reflexivity].
      apply IH; assumption.
Qed.

Lemma startswith_json_fence x :
  Py.startswith x "json" = false -> Py.startswith (x +:+ "```") "json" = false.
Proof. apply startswith_before_fence. reflexivity. Qed.

Lemma fenced_text x raw :
  Py.strip raw = "```json" +:+ x +:+ "```"
  \/ (Py.strip raw = "```" +:+ x +:+ "```" /\ Py.startswith x "json" = false) ->
  response_text raw = Py.strip x.
Proof.
  unfold response_text. intros [->|[-> Hx]].
  - rewrite (proj2 (startswith_spec _ "```json")) by eauto.
    cbn iota. change (slice_from 7 ("```json" +:+ x +:+ "```")) with (x +:+ "```").
    apply unfence_tail.
  - change (Py.startswith ("```" +:+ x +:+ "```") "```json")
      with (Py.startswith (x +:+ "```") "json").
    rewrite (startswith_json_fence x Hx).
    rewrite (proj2 (startswith_spec _ "```")) by eauto.
    cbn iota. change (slice_from 3 ("```" +:+ x +:+ "```")) with (x +:+ "```").
    apply unfence_tail.
Qed.


(** X29. A response that is, once trimmed, some text between an opening
    fence (with or without the [json] tag) and a closing fence is parsed as
    that text, trimmed: the fences and the white space around them never
    reach [json.loads]. *)
Theorem fenced_response_is_unwrapped (x raw : string) :
  Py.strip raw = "```json" +:+ x +:+ "```"
  \/ (Py.strip raw = "```" +:+ x +:+ "```" /\ Py.startswith x "json" = false) ->
  response_text raw = Py.strip x
  /\ forall prompt,
       chat_completion prompt = Ok raw ->
       _generate_with_openai chat_completion json_loads prompt
       = if Py.truthy (Py.strip x)
         then match json_loads (Py.strip x) with
              | Some v => Ok v
              | None => Raise ValueError
              end
         else Raise ValueError.
Proof.
  intros Hraw. pose proof (fenced_text x raw Hraw) as Htext.
  split; [exact Htext|].
  intros prompt Hchat. unfold _generate_with_openai. rewrite Hchat. cbn [bind].
  rewrite Htext. destruct (Py.truthy (Py.strip x)); reflexivity.
Qed.


End Responses.

Section ResponseExamples.
Import Json DocxParser AIGenerator PromptSpec.

Lemma fenced_response_is_unwrapped_witness :
  response_text fenced_response = "{}".
Proof.
  apply (proj1 (fenced_response_is_unwrapped (fun _ => Ok fenced_response)
                  (fun _ => None) (nl +:+ "{}" +:+ nl) fenced_response
                  (or_introl eq_refl))).
Defined.

End ResponseExamples.
